(** * Sheets helper of the order-management codelab: request builders

    A shallow embedding of [sheets.js] (the [SheetsHelper] module): the
    object literals it sends to the Sheets service, the shared [COLUMNS]
    table that [getColumnForField] updates in place, and the two operations
    [createSpreadsheet] and [sync], which talk to the service through
    callbacks.  *)

From Stdlib Require Import ZArith NArith String Ascii List DecimalString Lia.
From ITree Require Import ITree.
From stdpp Require Import gmap strings list.
Import ListNotations.
Local Open Scope string_scope.
Local Open Scope Z_scope.

(** ** JavaScript values *)

(** A Number is kept as the decimal that [Number::toString] prints for it:
    [Dec m e] is [m * 10^e].  [9.5] is [Dec 95 (-1)], [3] is [Dec 3 0]. *)
Inductive JsNumber : Type :=
| Dec (mantissa exponent : Z)
| NaN
| Infinity (negative : bool).

(** Primitive values: what a column of an order row holds. *)
Inductive Prim : Type :=
| PUndefined
| PNull
| PBool (b : bool)
| PNum (n : JsNumber)
| PStr (s : string).

#[local] Set Warnings "-register-all".

(** Values in general: primitives, object literals (properties in the order
    the literal writes them) and array literals. *)
Inductive JsVal : Type :=
| JsPrim (p : Prim)
| JsObj (props : list (string * JsVal))
| JsArr (elems : list JsVal).

Definition undefined : JsVal := JsPrim PUndefined.
Definition null : JsVal := JsPrim PNull.
Definition bool_ (b : bool) : JsVal := JsPrim (PBool b).
Definition str (s : string) : JsVal := JsPrim (PStr s).
Definition int (z : Z) : JsVal := JsPrim (PNum (Dec z 0)).

(** The only exception this module can raise: reading a property of
    [undefined] or [null], or [reduce] over an empty array. *)
Inductive Exn : Type := TypeError.

Inductive Result (A : Type) : Type :=
| Ok (a : A)
| Throw (e : Exn).
Arguments Ok {A} a.
Arguments Throw {A} e.

Definition to_option {A} (r : Result A) : option A :=
  match r with
  | Ok a => Some a
  | Throw _ => None
  end.

Definition bindR {A B} (r : Result A) (k : A -> Result B) : Result B :=
  match r with
  | Ok a => k a
  | Throw e => Throw e
  end.

Notation "'do' x <- r ; k" := (bindR r (fun x => k))
  (at level 10, x name, r at level 100, k at level 200).
Notation "'do' ' p <- r ; k" := (bindR r (fun x => let 'p := x in k))
  (at level 10, p strict pattern, r at level 100, k at level 200).

(** [xs.map(f)] where [f] may throw: elements are visited left to right and
    the first exception aborts the whole map. *)
Fixpoint mapR {A B} (f : A -> Result B) (xs : list A) : Result (list B) :=
  match xs with
  | [] => Ok []
  | x :: xs' =>
      do y <- f x;
      do ys <- mapR f xs';
      Ok (y :: ys)
  end.

(** ** Number::toString (radix 10) *)

Definition digits (n : N) : string := NilZero.string_of_uint (N.to_uint n).

Fixpoint strip_trailing_zeros (s : string) : string :=
  match s with
  | EmptyString => EmptyString
  | String c s' =>
      match strip_trailing_zeros s' with
      | EmptyString => if Ascii.eqb c "0" then EmptyString else String c EmptyString
      | r => String c r
      end
  end.

Fixpoint zeros (n : nat) : string :=
  match n with
  | O => EmptyString
  | S n' => String "0" (zeros n')
  end.

(** With [s] the digits of the number without trailing zeros, [k] their
    count and [n] the position of the decimal point, the five layouts of
    the language definition. *)
Definition Number_toString (x : JsNumber) : string :=
  match x with
  | NaN => "NaN"
  | Infinity negative => if negative then "-Infinity" else "Infinity"
  | Dec m e =>
      if m =? 0 then "0" else
      let all := digits (Z.abs_N m) in
      let s := strip_trailing_zeros all in
      let k := Z.of_nat (String.length s) in
      let n := Z.of_nat (String.length all) + e in
      let sign := if m <? 0 then "-" else EmptyString in
      let expo := (if n - 1 <? 0 then "-" else "+") +:+ digits (Z.abs_N (n - 1)) in
      sign +:+
      (if (k <=? n) && (n <=? 21) then
         s +:+ zeros (Z.to_nat (n - k))
       else if (0 <? n) && (n <=? 21) then
         substring 0 (Z.to_nat n) s +:+ "." +:+ substring (Z.to_nat n) (Z.to_nat (k - n)) s
       else if (-6 <? n) && (n <=? 0) then
         "0." +:+ zeros (Z.to_nat (- n)) +:+ s
       else if k =? 1 then
         s +:+ "e" +:+ expo
       else
         substring 0 1 s +:+ "." +:+ substring 1 (Z.to_nat (k - 1)) s +:+ "e" +:+ expo)
  end.

(** [v.toString()] on a primitive: [undefined] and [null] have no
    properties, so the method lookup itself throws. *)
Definition toString (v : Prim) : Result string :=
  match v with
  | PUndefined | PNull => Throw TypeError
  | PBool b => Ok (if b then "true" else "false")
  | PNum n => Ok (Number_toString n)
  | PStr s => Ok s
  end.

(** The test of [if (err)]. *)
Definition truthy (v : JsVal) : bool :=
  match v with
  | JsPrim PUndefined | JsPrim PNull => false
  | JsPrim (PBool b) => b
  | JsPrim (PNum (Dec m _)) => negb (m =? 0)
  | JsPrim (PNum NaN) => false
  | JsPrim (PNum (Infinity _)) => true
  | JsPrim (PStr s) => negb (String.eqb s EmptyString)
  | JsObj _ | JsArr _ => true
  end.

(** ** Property access *)

(** Own property of an object literal; a key written twice keeps its last
    value. *)
Fixpoint assoc (key : string) (props : list (string * JsVal)) : option JsVal :=
  match props with
  | [] => None
  | (k, v) :: rest =>
      match assoc key rest with
      | Some x => Some x
      | None => if String.eqb k key then Some v else None
      end
  end.

(** [v.key] for the keys this module reads ([data], [sheets],
    [properties], [sheetId], [spreadsheetId]): none of them is inherited
    from a prototype, so on anything but an object literal the read gives
    [undefined], and on [undefined] or [null] it throws. *)
Definition get (v : JsVal) (key : string) : Result JsVal :=
  match v with
  | JsPrim PUndefined | JsPrim PNull => Throw TypeError
  | JsObj props => Ok (default undefined (assoc key props))
  | JsPrim _ | JsArr _ => Ok undefined
  end.

(** [v[i]] for a literal index. *)
Definition get_index (v : JsVal) (i : nat) : Result JsVal :=
  match v with
  | JsPrim PUndefined | JsPrim PNull => Throw TypeError
  | JsArr elems => Ok (default undefined (elems !! i))
  | JsObj props => Ok (default undefined (assoc (digits (N.of_nat i)) props))
  | JsPrim (PStr s) =>
      Ok (match String.get i s with
          | Some c => str (String c EmptyString)
          | None => undefined
          end)
  | JsPrim _ => Ok undefined
  end.

(** ** Orders *)

(** An order row as the ORM hands it over: a property that is absent reads
    as [undefined]. *)
Abbreviation Order := (gmap string Prim).

Definition prop (order : Order) (key : string) : Prim :=
  default PUndefined (order !! key).

(** ** The column table *)

(** A column specification object.  [index] is the property that
    [getColumnForField] adds to the object it finds; it is absent until
    then. *)
Record Column : Type := mkColumn {
  field : string;
  header : string;
  index : option nat
}.

(** [var COLUMNS = [...]] as the module is loaded.  The array is shared by
    every function below and its objects are updated in place, so the
    functions take the current table as an argument. *)
Definition COLUMNS : list Column := [
  {| field := "id"; header := "ID"; index := None |};
  {| field := "customerName"; header := "Customer Name"; index := None |};
  {| field := "productCode"; header := "Product Code"; index := None |};
  {| field := "unitsOrdered"; header := "Units Ordered"; index := None |};
  {| field := "unitPrice"; header := "Unit Price"; index := None |};
  {| field := "status"; header := "Status"; index := None |}
].

(** One call of the reducer of [getColumnForField]: [result] is the position
    in the table of the object accumulated so far. *)
Definition reduce_step (fld : string) (acc : nat * list Column) (i : nat)
  : nat * list Column :=
  let '(result, columns) := acc in
  match columns !! i with
  | Some column =>
      if String.eqb (field column) fld then
        (i, <[i := {| field := field column; header := header column; index := Some i |}]> columns)
      else (result, columns)
  | None => (result, columns)
  end.

(** [COLUMNS.reduce(f)] has no initial value: the accumulator starts as the
    first object, the reducer runs from position 1 on, and an empty array
    is a [TypeError].  The result is a reference into the table (its
    position), returned with the updated table. *)
Definition getColumnForField (fld : string) (columns : list Column)
  : Result (nat * list Column) :=
  match columns with
  | [] => Throw TypeError
  | _ :: rest => Ok (fold_left (reduce_step fld) (seq 1 (length rest)) (0%nat, columns))
  end.

(** Reads through the reference returned by [getColumnForField]. *)
Definition index_of (columns : list Column) (ref : nat) : JsVal :=
  match columns !! ref with
  | Some {| index := Some i |} => int (Z.of_nat i)
  | _ => undefined
  end.

Definition header_of (columns : list Column) (ref : nat) : JsVal :=
  match columns !! ref with
  | Some column => str (header column)
  | None => undefined
  end.

(** The tables the running program can hold: the initial one, and whatever
    [getColumnForField] leaves behind. *)
Inductive reachable : list Column -> Prop :=
| reachable_init : reachable COLUMNS
| reachable_lookup fld columns ref columns' :
    reachable columns ->
    getColumnForField fld columns = Ok (ref, columns') ->
    reachable columns'.

(** ** Header row *)

Definition buildHeaderRowRequest (sheetId : JsVal) (columns : list Column) : JsVal :=
  let cells := map (fun column =>
    JsObj [
      ("userEnteredValue", JsObj [
        ("stringValue", str (header column))
      ]);
      ("userEnteredFormat", JsObj [
        ("textFormat", JsObj [
          ("bold", bool_ true)
        ])
      ])
    ]) columns in
  JsObj [
    ("updateCells", JsObj [
      ("start", JsObj [
        ("sheetId", sheetId);
        ("rowIndex", int 0);
        ("columnIndex", int 0)
      ]);
      ("rows", JsArr [
        JsObj [
          ("values", JsArr cells)
        ]
      ]);
      ("fields", str "userEnteredValue,userEnteredFormat.textFormat.bold")
    ])
  ].

(** ** Rows of orders *)

Definition dquote : ascii := "034"%char.

(** The pattern literal of the source is written between single quotes and
    holds two double-quote characters, around the dollar sign. *)
Definition currency_pattern : string :=
  String dquote (String "$" (String dquote "#,##0.00")).

Definition buildRowsForOrders (orders : list Order) (columns : list Column)
  : Result (list JsVal) :=
  mapR (fun order : Order =>
    do cells <- mapR (fun column =>
      if String.eqb (field column) "unitsOrdered" then
        Ok (JsObj [
          ("userEnteredValue", JsObj [
            ("numberValue", JsPrim (prop order "unitsOrdered"))
          ]);
          ("userEnteredFormat", JsObj [
            ("numberFormat", JsObj [
              ("type", str "NUMBER");
              ("pattern", str "#,##0")
            ])
          ])
        ])
      else if String.eqb (field column) "unitPrice" then
        Ok (JsObj [
          ("userEnteredValue", JsObj [
            ("numberValue", JsPrim (prop order "unitPrice"))
          ]);
          ("userEnteredFormat", JsObj [
            ("numberFormat", JsObj [
              ("type", str "CURRENCY");
              ("pattern", str currency_pattern)
            ])
          ])
        ])
      else if String.eqb (field column) "status" then
        Ok (JsObj [
          ("userEnteredValue", JsObj [
            ("stringValue", JsPrim (prop order "status"))
          ]);
          ("dataValidation", JsObj [
            ("condition", JsObj [
              ("type", str "ONE_OF_LIST");
              ("values", JsArr [
                JsObj [("userEnteredValue", str "PENDING")];
                JsObj [("userEnteredValue", str "SHIPPED")];
                JsObj [("userEnteredValue", str "DELIVERED")]
              ])
            ]);
            ("strict", bool_ true);
            ("showCustomUi", bool_ true)
          ])
        ])
      else
        do s <- toString (prop order (field column));
        Ok (JsObj [
          ("userEnteredValue", JsObj [
            ("stringValue", str s)
          ])
        ])) columns;
    Ok (JsObj [
      ("values", JsArr cells)
    ])) orders.

(** ** Pivot table, its format and its chart *)

(** [util.format] as this module uses it: each [%s] takes the next
    argument, a string.  (The one call has as many arguments as
    placeholders.) *)
Fixpoint util_format (fmt : string) (args : list string) : string :=
  match fmt with
  | EmptyString => EmptyString
  | String c rest =>
      match rest, args with
      | String d rest', a :: args' =>
          if Ascii.eqb c "%" && Ascii.eqb d "s" then a +:+ util_format rest' args'
          else String c (util_format rest args)
      | _, _ => String c (util_format rest args)
      end
  end.

Definition string_of (v : JsVal) : string :=
  match v with
  | JsPrim (PStr s) => s
  | _ => "undefined"
  end.

Definition buildPivotTableRequest (sourceSheetId targetSheetId : JsVal)
    (columns : list Column) : Result (JsVal * list Column) :=
  let endColumnIndex := int (Z.of_nat (length columns)) in
  do '(c1, columns) <- getColumnForField "productCode" columns;
  let rowOffset := index_of columns c1 in
  do '(c2, columns) <- getColumnForField "unitsOrdered" columns;
  let valueOffset := index_of columns c2 in
  do '(c3, columns) <- getColumnForField "unitsOrdered" columns;
  let left := header_of columns c3 in
  do '(c4, columns) <- getColumnForField "unitPrice" columns;
  let right := header_of columns c4 in
  Ok (JsObj [
    ("updateCells", JsObj [
      ("start", JsObj [("sheetId", targetSheetId); ("rowIndex", int 0); ("columnIndex", int 0)]);
      ("rows", JsArr [
        JsObj [
          ("values", JsArr [
            JsObj [
              ("pivotTable", JsObj [
                ("source", JsObj [
                  ("sheetId", sourceSheetId);
                  ("startRowIndex", int 0);
                  ("startColumnIndex", int 0);
                  ("endColumnIndex", endColumnIndex)
                ]);
                ("rows", JsArr [
                  JsObj [
                    ("sourceColumnOffset", rowOffset);
                    ("showTotals", bool_ false);
                    ("sortOrder", str "ASCENDING")
                  ]
                ]);
                ("values", JsArr [
                  JsObj [
                    ("summarizeFunction", str "SUM");
                    ("sourceColumnOffset", valueOffset)
                  ];
                  JsObj [
                    ("summarizeFunction", str "SUM");
                    ("name", str "Revenue");
                    ("formula", str (util_format "='%s' * '%s'"
                                       [string_of left; string_of right]))
                  ]
                ])
              ])
            ]
          ])
        ]
      ]);
      ("fields", str "*")
    ])
  ], columns).

Definition buildFormatPivotTableRequest (sheetId : JsVal) : JsVal :=
  JsObj [
    ("repeatCell", JsObj [
      ("range", JsObj [("sheetId", sheetId); ("startRowIndex", int 1); ("startColumnIndex", int 2)]);
      ("cell", JsObj [
        ("userEnteredFormat", JsObj [
          ("numberFormat", JsObj [("type", str "CURRENCY"); ("pattern", str currency_pattern)])
        ])
      ]);
      ("fields", str "userEnteredFormat.numberFormat")
    ])
  ].

Definition buildAddChartRequest (sheetId : JsVal) : JsVal :=
  JsObj [
    ("addChart", JsObj [
      ("chart", JsObj [
        ("spec", JsObj [
          ("title", str "Revenue per Product");
          ("basicChart", JsObj [
            ("chartType", str "BAR");
            ("legendPosition", str "RIGHT_LEGEND");
            ("domains", JsArr [
              JsObj [
                ("domain", JsObj [("sourceRange", JsObj [("sources", JsArr [JsObj [
                  ("sheetId", sheetId);
                  ("startRowIndex", int 0);
                  ("startColumnIndex", int 0);
                  ("endColumnIndex", int 1)
                ]])])])
              ]
            ]);
            ("series", JsArr [
              JsObj [
                ("series", JsObj [("sourceRange", JsObj [("sources", JsArr [JsObj [
                  ("sheetId", sheetId);
                  ("startRowIndex", int 0);
                  ("startColumnIndex", int 2);
                  ("endColumnIndex", int 3)
                ]])])])
              ]
            ])
          ])
        ]);
        ("position", JsObj [
          ("overlayPosition", JsObj [
            ("anchorCell", JsObj [("sheetId", sheetId); ("rowIndex", int 0); ("columnIndex", int 3)]);
            ("widthPixels", int 600);
            ("heightPixels", int 400)
          ])
        ])
      ])
    ])
  ].

(** ** The Sheets service and the two operations *)

(** The calls [this.service.spreadsheets] offers.  A call is answered with
    the pair [(err, response)] that the service hands to the callback. *)
Variant sheetsE : Type -> Type :=
| spreadsheets_create (request : JsVal) : sheetsE (JsVal * JsVal)
| spreadsheets_batchUpdate (request : JsVal) : sheetsE (JsVal * JsVal).

(** How an operation ends: it calls [callback] with some arguments, or an
    exception escapes it. *)
Inductive Outcome : Type :=
| Callback (args : list JsVal)
| Thrown (e : Exn).

(** The request literal at the head of [createSpreadsheet]. *)
Definition create_request (title : JsVal) : JsVal :=
  JsObj [
    ("resource", JsObj [
      ("properties", JsObj [
        ("title", title)
      ]);
      ("sheets", JsArr [
        JsObj [
          ("properties", JsObj [
            ("title", str "Data");
            ("gridProperties", JsObj [
              ("columnCount", int 6);
              ("frozenRowCount", int 1)
            ])
          ])
        ];
        JsObj [
          ("properties", JsObj [
            ("title", str "Pivot");
            ("gridProperties", JsObj [
              ("hideGridlines", bool_ true)
            ])
          ])
        ]
      ])
    ])
  ].

(** The body of the callback of [spreadsheets.create], up to its own call
    of the service: the batch request, the spreadsheet and the table as the
    pivot builder left it.  Every read that can throw comes before the
    table is touched. *)
Definition create_followup (response : JsVal) (columns : list Column)
  : Result (JsVal * JsVal * list Column) :=
  do spreadsheet <- get response "data";
  do sheets <- get spreadsheet "sheets";
  do sheet <- get_index sheets 0;
  do properties <- get sheet "properties";
  do dataSheetId <- get properties "sheetId";
  let requests := [
    buildHeaderRowRequest dataSheetId columns
  ] in
  do sheets <- get spreadsheet "sheets";
  do sheet <- get_index sheets 1;
  do properties <- get sheet "properties";
  do pivotSheetId <- get properties "sheetId";
  do '(pivot, columns) <- buildPivotTableRequest dataSheetId pivotSheetId columns;
  let requests := (requests ++ [
    pivot;
    buildFormatPivotTableRequest pivotSheetId;
    buildAddChartRequest pivotSheetId
  ])%list in
  do spreadsheetId <- get spreadsheet "spreadsheetId";
  let request := JsObj [
    ("spreadsheetId", spreadsheetId);
    ("resource", JsObj [
      ("requests", JsArr requests)
    ])
  ] in
  Ok (request, spreadsheet, columns).

Definition createSpreadsheet (title : JsVal) (columns : list Column)
  : itree sheetsE (Outcome * list Column) :=
  let request := create_request title in
  ITree.bind (ITree.trigger (spreadsheets_create request)) (fun '(err, response) =>
    if truthy err then Ret (Callback [err], columns)
    else
      match create_followup response columns with
      | Throw e => Ret (Thrown e, columns)
      | Ok (request, spreadsheet, columns) =>
          ITree.bind (ITree.trigger (spreadsheets_batchUpdate request)) (fun '(err, response) =>
            if truthy err then Ret (Callback [err], columns)
            else Ret (Callback [null; spreadsheet], columns))
      end).

(** The request [sync] builds before it calls the service. *)
Definition sync_request (spreadsheetId sheetId : JsVal) (orders : list Order)
    (columns : list Column) : Result JsVal :=
  let requests := [] in
  let requests := (requests ++ [
    JsObj [
      ("updateSheetProperties", JsObj [
        ("properties", JsObj [
          ("sheetId", sheetId);
          ("gridProperties", JsObj [
            ("rowCount", int (Z.of_nat (length orders) + 1));
            ("columnCount", int (Z.of_nat (length columns)))
          ])
        ]);
        ("fields", str "gridProperties(rowCount,columnCount)")
      ])
    ]
  ])%list in
  do rows <- buildRowsForOrders orders columns;
  let requests := (requests ++ [
    JsObj [
      ("updateCells", JsObj [
        ("start", JsObj [
          ("sheetId", sheetId);
          ("rowIndex", int 1);
          ("columnIndex", int 0)
        ]);
        ("rows", JsArr rows);
        ("fields", str "*")
      ])
    ]
  ])%list in
  let request := JsObj [
    ("spreadsheetId", spreadsheetId);
    ("resource", JsObj [
      ("requests", JsArr requests)
    ])
  ] in
  Ok request.

Definition sync (spreadsheetId sheetId : JsVal) (orders : list Order)
    (columns : list Column) : itree sheetsE Outcome :=
  match sync_request spreadsheetId sheetId orders columns with
  | Throw e => Ret (Thrown e)
  | Ok request =>
      ITree.bind (ITree.trigger (spreadsheets_batchUpdate request)) (fun '(err, _) =>
        if truthy err then Ret (Callback [err])
        else Ret (Callback []))
  end.

(** ** Reading a built request *)

(** A step into a value: a property of an object literal, or a position of
    an array literal. *)
Inductive Key : Type :=
| K (name : string)
| I (i : nat).

Fixpoint at_path (v : JsVal) (path : list Key) : option JsVal :=
  match path with
  | [] => Some v
  | K name :: path' =>
      match v with
      | JsObj props =>
          match assoc name props with
          | Some x => at_path x path'
          | None => None
          end
      | _ => None
      end
  | I i :: path' =>
      match v with
      | JsArr elems =>
          match elems !! i with
          | Some x => at_path x path'
          | None => None
          end
      | _ => None
      end
  end.

(** What an operation does first: a call of the service, or its end. *)
Inductive FirstStep (R : Type) : Type :=
| Calls (method : string) (request : JsVal)
| Ends (r : R)
| Silent.
Arguments Calls {R} method request.
Arguments Ends {R} r.
Arguments Silent {R}.

Definition method_of {T} (e : sheetsE T) : string * JsVal :=
  match e with
  | spreadsheets_create request => ("spreadsheets.create", request)
  | spreadsheets_batchUpdate request => ("spreadsheets.batchUpdate", request)
  end.

Definition first_step {R} (t : itree sheetsE R) : FirstStep R :=
  match observe t with
  | RetF r => Ends r
  | TauF _ => Silent
  | VisF e _ => let '(m, request) := method_of e in Calls m request
  end.

Definition resume {R} (t : itree sheetsE R) (reply : JsVal * JsVal)
  : option (itree sheetsE R) :=
  match observe t with
  | VisF e k =>
      match e in sheetsE T return (T -> itree sheetsE R) -> option (itree sheetsE R) with
      | spreadsheets_create _ => fun k => Some (k reply)
      | spreadsheets_batchUpdate _ => fun k => Some (k reply)
      end k
  | _ => None
  end.

(** Runs an operation against a service that answers with the scripted
    replies, in order: the calls made, and the outcome if the script was
    long enough to reach it. *)
Fixpoint run {R} (replies : list (JsVal * JsVal)) (t : itree sheetsE R)
  : list (string * JsVal) * option R :=
  match first_step t, replies with
  | Ends r, _ => ([], Some r)
  | Calls m request, reply :: replies' =>
      match resume t reply with
      | Some t' => let '(calls, r) := run replies' t' in ((m, request) :: calls, r)
      | None => ([(m, request)], None)
      end
  | Calls m request, [] => ([(m, request)], None)
  | Silent, _ => ([], None)
  end.

(** ** Sample data *)

Definition order1 : Order :=
  {[ "id" := PNum (Dec 1 0);
     "customerName" := PStr "A";
     "productCode" := PStr "X1";
     "unitsOrdered" := PNum (Dec 3 0);
     "unitPrice" := PNum (Dec 95 (-1));
     "status" := PStr "PENDING" ]}.

(** A reply of [spreadsheets.create]: the new spreadsheet, with the ids the
    service gave its two sheets. *)
Definition created_spreadsheet : JsVal :=
  JsObj [
    ("spreadsheetId", str "s1");
    ("properties", JsObj [("title", str EmptyString)]);
    ("sheets", JsArr [
      JsObj [("properties", JsObj [("sheetId", int 0); ("title", str "Data")])];
      JsObj [("properties", JsObj [("sheetId", int 42); ("title", str "Pivot")])]
    ])
  ].

Definition created_response : JsVal :=
  JsObj [("data", created_spreadsheet)].

(** * Vocabulary of the properties *)

(** ** Layout of the column table *)

Definition layout (columns : list Column) : list (string * string) :=
  map (fun column => (field column, header column)) columns.

(** ** One row, cell by cell *)

Definition text_cell (s : string) : JsVal :=
  JsObj [("userEnteredValue", JsObj [("stringValue", str s)])].

Definition number_cell (type pattern : string) (v : Prim) : JsVal :=
  JsObj [
    ("userEnteredValue", JsObj [("numberValue", JsPrim v)]);
    ("userEnteredFormat", JsObj [
      ("numberFormat", JsObj [("type", str type); ("pattern", str pattern)])])
  ].

Definition status_cell (v : Prim) : JsVal :=
  JsObj [
    ("userEnteredValue", JsObj [("stringValue", JsPrim v)]);
    ("dataValidation", JsObj [
      ("condition", JsObj [
        ("type", str "ONE_OF_LIST");
        ("values", JsArr [
          JsObj [("userEnteredValue", str "PENDING")];
          JsObj [("userEnteredValue", str "SHIPPED")];
          JsObj [("userEnteredValue", str "DELIVERED")]
        ])
      ]);
      ("strict", bool_ true);
      ("showCustomUi", bool_ true)
    ])
  ].

(** The row the builder makes of one order when the table has the layout of
    [COLUMNS]: the three stringified fields first, in order, each of which
    may throw. *)
Definition row_of (order : Order) : Result JsVal :=
  do id <- toString (prop order "id");
  do customerName <- toString (prop order "customerName");
  do productCode <- toString (prop order "productCode");
  Ok (JsObj [
    ("values", JsArr [
      text_cell id;
      text_cell customerName;
      text_cell productCode;
      number_cell "NUMBER" "#,##0" (prop order "unitsOrdered");
      number_cell "CURRENCY" currency_pattern (prop order "unitPrice");
      status_cell (prop order "status")
    ])
  ]).

(** ** Header row and pivot table *)

Definition bold_cell (text : string) : JsVal :=
  JsObj [
    ("userEnteredValue", JsObj [("stringValue", str text)]);
    ("userEnteredFormat", JsObj [("textFormat", JsObj [("bold", bool_ true)])])
  ].

(** What the header request has to say: where it writes, and the one row it
    writes there. *)
Definition writes_header_row (sheetId request : JsVal) : Prop :=
  at_path request [K "updateCells"; K "start"] =
    Some (JsObj [("sheetId", sheetId); ("rowIndex", int 0); ("columnIndex", int 0)]) /\
  at_path request [K "updateCells"; K "rows"] =
    Some (JsArr [
      JsObj [("values", JsArr (map bold_cell
        ["ID"; "Customer Name"; "Product Code"; "Units Ordered"; "Unit Price"; "Status"]))]
    ]).

Definition pivot_path : list Key :=
  [K "updateCells"; K "rows"; I 0; K "values"; I 0; K "pivotTable"].

Definition is_pivot_of_orders (sourceSheetId targetSheetId request : JsVal) : Prop :=
  at_path request [K "updateCells"; K "start"] =
    Some (JsObj [("sheetId", targetSheetId); ("rowIndex", int 0); ("columnIndex", int 0)]) /\
  at_path request (pivot_path ++ [K "source"])%list =
    Some (JsObj [
      ("sheetId", sourceSheetId);
      ("startRowIndex", int 0);
      ("startColumnIndex", int 0);
      ("endColumnIndex", int 6)
    ]) /\
  at_path request (pivot_path ++ [K "rows"])%list =
    Some (JsArr [
      JsObj [
        ("sourceColumnOffset", int 2);
        ("showTotals", bool_ false);
        ("sortOrder", str "ASCENDING")
      ]
    ]) /\
  at_path request (pivot_path ++ [K "values"])%list =
    Some (JsArr [
      JsObj [("summarizeFunction", str "SUM"); ("sourceColumnOffset", int 3)];
      JsObj [
        ("summarizeFunction", str "SUM");
        ("name", str "Revenue");
        ("formula", str "='Units Ordered' * 'Unit Price'")
      ]
    ]).

(** Position [i] of the table holds the column of field [fld], whose header
    is [hdr]. *)
Definition column_is (columns : list Column) (i : nat) (fld hdr : string) : Prop :=
  exists column, columns !! i = Some column /\ field column = fld /\ header column = hdr.

(** ** Creating a spreadsheet *)

Definition two_sheets : JsVal :=
  JsArr [
    JsObj [
      ("properties", JsObj [
        ("title", str "Data");
        ("gridProperties", JsObj [("columnCount", int 6); ("frozenRowCount", int 1)])
      ])
    ];
    JsObj [
      ("properties", JsObj [
        ("title", str "Pivot");
        ("gridProperties", JsObj [("hideGridlines", bool_ true)])
      ])
    ]
  ].

(** ** Synchronising orders *)

(** The three fields the row builder stringifies. *)
Definition text_fields : list string := ["id"; "customerName"; "productCode"].

Definition has_text_fields (order : Order) : Prop :=
  Forall (fun fld => exists s, toString (prop order fld) = Ok s) text_fields.

Definition grid_path : list Key :=
  [K "resource"; K "requests"; I 0; K "updateSheetProperties"; K "properties";
   K "gridProperties"].

Definition cells_path : list Key :=
  [K "resource"; K "requests"; I 1; K "updateCells"].

(** The value a cell enters. *)
Definition entered (cell : JsVal) : option JsVal :=
  at_path cell [K "userEnteredValue"].

(** A row of six cells that enter, from left to right, the id, the customer
    name, the product code (all three as text), the units ordered, the unit
    price and the status of the order. *)
Definition row_in_column_order (order : Order) (row : JsVal) : Prop :=
  exists id customerName productCode cells,
    toString (prop order "id") = Ok id /\
    toString (prop order "customerName") = Ok customerName /\
    toString (prop order "productCode") = Ok productCode /\
    at_path row [K "values"] = Some (JsArr cells) /\
    map entered cells = [
      Some (JsObj [("stringValue", str id)]);
      Some (JsObj [("stringValue", str customerName)]);
      Some (JsObj [("stringValue", str productCode)]);
      Some (JsObj [("numberValue", JsPrim (prop order "unitsOrdered"))]);
      Some (JsObj [("numberValue", JsPrim (prop order "unitPrice"))]);
      Some (JsObj [("stringValue", JsPrim (prop order "status"))])
    ].

Definition resizes_and_writes (sheetId : JsVal) (orders : list Order) (request : JsVal)
  : Prop :=
  at_path request (grid_path ++ [K "rowCount"])%list =
    Some (int (Z.of_nat (length orders) + 1)) /\
  at_path request (grid_path ++ [K "columnCount"])%list = Some (int 6) /\
  at_path request (cells_path ++ [K "start"])%list =
    Some (JsObj [("sheetId", sheetId); ("rowIndex", int 1); ("columnIndex", int 0)]) /\
  exists rows,
    at_path request (cells_path ++ [K "rows"])%list = Some (JsArr rows) /\
    length rows = length orders /\
    Forall2 row_in_column_order orders rows.

Definition example_request (request : JsVal) : Prop :=
  at_path request (grid_path ++ [K "rowCount"])%list = Some (int 2) /\
  at_path request (grid_path ++ [K "columnCount"])%list = Some (int 6) /\
  exists cells,
    at_path request (cells_path ++ [K "rows"])%list =
      Some (JsArr [JsObj [("values", JsArr cells)]]) /\
    map entered cells = [
      Some (JsObj [("stringValue", str "1")]);
      Some (JsObj [("stringValue", str "A")]);
      Some (JsObj [("stringValue", str "X1")]);
      Some (JsObj [("numberValue", JsPrim (PNum (Dec 3 0)))]);
      Some (JsObj [("numberValue", JsPrim (PNum (Dec 95 (-1))))]);
      Some (JsObj [("stringValue", str "PENDING")])
    ].

Definition number_formats (row : JsVal) : Prop :=
  at_path row [K "values"; I 3; K "userEnteredFormat"; K "numberFormat"] =
    Some (JsObj [("type", str "NUMBER"); ("pattern", str "#,##0")]) /\
  at_path row [K "values"; I 4; K "userEnteredFormat"; K "numberFormat"] =
    Some (JsObj [
      ("type", str "CURRENCY");
      ("pattern", str (String "034" (String "$" (String "034" "#,##0.00"))))
    ]).

(** ** Orders with a field missing, and the status cell *)

Definition order_without_status : Order := delete "status" order1.

(** The three fields that are copied as they are, with the slot and the
    position of their cell. *)
Definition copied_fields : list (string * string * nat) :=
  [("unitsOrdered", "numberValue", 3%nat);
   ("unitPrice", "numberValue", 4%nat);
   ("status", "stringValue", 5%nat)].

Definition status_validation (cell : JsVal) : Prop :=
  at_path cell [K "dataValidation"; K "condition"] =
    Some (JsObj [
      ("type", str "ONE_OF_LIST");
      ("values", JsArr [
        JsObj [("userEnteredValue", str "PENDING")];
        JsObj [("userEnteredValue", str "SHIPPED")];
        JsObj [("userEnteredValue", str "DELIVERED")]
      ])
    ]) /\
  at_path cell [K "dataValidation"; K "strict"] = Some (bool_ true).

(** ** Lookups in the column table *)

(** The column object after [column.index = i]. *)
Definition with_index (column : Column) (i : nat) : Column :=
  {| field := field column; header := header column; index := Some i |}.

(** ** What a reply of the service must hold *)

(** [spreadsheet.sheets[i].properties.sheetId], read as the callback of
    [spreadsheets.create] reads it. *)
Definition sheet_id (spreadsheet : JsVal) (i : nat) : Result JsVal :=
  do sheets <- get spreadsheet "sheets";
  do sheet <- get_index sheets i;
  do properties <- get sheet "properties";
  get properties "sheetId".

Definition nullish (v : Prim) : bool :=
  match v with
  | PUndefined | PNull => true
  | _ => false
  end.

(** The six properties of an order that the row builder reads. *)
Definition order_fields : list string :=
  ["id"; "customerName"; "productCode"; "unitsOrdered"; "unitPrice"; "status"].

(** The reads the callback of [spreadsheets.create] makes of the reply
    before it builds anything: the spreadsheet and the ids of its first two
    sheets. *)
Definition reply_sheet_ids (response : JsVal) : Result (JsVal * JsVal * JsVal) :=
  do spreadsheet <- get response "data";
  do dataSheetId <- sheet_id spreadsheet 0;
  do pivotSheetId <- sheet_id spreadsheet 1;
  Ok (spreadsheet, dataSheetId, pivotSheetId).

(** * Earlier steps of the helper *)

(** The request literal of the steps that create the Data sheet alone. *)
Definition create_request_data_only (title : JsVal) : JsVal :=
  JsObj [
    ("resource", JsObj [
      ("properties", JsObj [
        ("title", title)
      ]);
      ("sheets", JsArr [
        JsObj [
          ("properties", JsObj [
            ("title", str "Data");
            ("gridProperties", JsObj [
              ("columnCount", int 6);
              ("frozenRowCount", int 1)
            ])
          ])
        ]
      ])
    ])
  ].

(** The batch request of the steps that write the header row only. *)
Definition header_followup (spreadsheet : JsVal) (columns : list Column) : Result JsVal :=
  do sheets <- get spreadsheet "sheets";
  do sheet <- get_index sheets 0;
  do properties <- get sheet "properties";
  do dataSheetId <- get properties "sheetId";
  let requests := [
    buildHeaderRowRequest dataSheetId columns
  ] in
  do spreadsheetId <- get spreadsheet "spreadsheetId";
  let request := JsObj [
    ("spreadsheetId", spreadsheetId);
    ("resource", JsObj [
      ("requests", JsArr requests)
    ])
  ] in
  Ok request.

(** [createSpreadsheet] of step 7, where the service hands the spreadsheet
    itself to the callback. *)
Definition createSpreadsheet_header (title : JsVal) (columns : list Column)
  : itree sheetsE Outcome :=
  let request := create_request_data_only title in
  ITree.bind (ITree.trigger (spreadsheets_create request)) (fun '(err, spreadsheet) =>
    if truthy err then Ret (Callback [err])
    else
      match header_followup spreadsheet columns with
      | Throw e => Ret (Thrown e)
      | Ok request =>
          ITree.bind (ITree.trigger (spreadsheets_batchUpdate request)) (fun '(err, response) =>
            if truthy err then Ret (Callback [err])
            else Ret (Callback [null; spreadsheet]))
      end).

(** The same step for the later client library, whose reply wraps the
    spreadsheet in [data]. *)
Definition createSpreadsheet_header_data (title : JsVal) (columns : list Column)
  : itree sheetsE Outcome :=
  let request := create_request_data_only title in
  ITree.bind (ITree.trigger (spreadsheets_create request)) (fun '(err, response) =>
    if truthy err then Ret (Callback [err])
    else
      match (do spreadsheet <- get response "data";
             do request <- header_followup spreadsheet columns;
             Ok (request, spreadsheet)) with
      | Throw e => Ret (Thrown e)
      | Ok (request, spreadsheet) =>
          ITree.bind (ITree.trigger (spreadsheets_batchUpdate request)) (fun '(err, response) =>
            if truthy err then Ret (Callback [err])
            else Ret (Callback [null; spreadsheet]))
      end).

(** * The routes that use the helper *)

(** ** Scripts and runs, for any family of calls *)

Section Exec.
Context {E : Type -> Type} {P : Type}.

(** [answer e reply] reads a scripted reply as the answer to the call [e],
    when it is one. *)
Variable answer : forall T, E T -> P -> option T.

(** The calls a handler makes against the scripted replies, in order, and
    how it ends if the script takes it that far. *)
Fixpoint exec {R} (replies : list P) (t : itree E R)
  : list {T : Type & E T} * option R :=
  match observe t with
  | RetF r => ([], Some r)
  | TauF _ => ([], None)
  | VisF e k =>
      match replies with
      | [] => ([existT _ e], None)
      | reply :: replies' =>
          match answer _ e reply with
          | Some x =>
              let '(calls, r) := exec replies' (k x) in
              (existT _ e :: calls, r)
          | None => ([existT _ e], None)
          end
      end
  end.
End Exec.

(** ** What a route talks to *)

(** A promise of the ORM, once settled. *)
Inductive Settled (A : Type) : Type :=
| Resolved (a : A)
| Rejected (reason : JsVal).
Arguments Resolved {A} a.
Arguments Rejected {A} reason.

(** The clock, the Sheets service as the helper built for an access token
    reaches it, and the queries of the two models. *)
Variant routeE : Type -> Type :=
| Date_toLocaleTimeString : routeE string
| sheets_service (accessToken : JsVal) {T : Type} (call : sheetsE T) : routeE T
| Spreadsheet_create (model : JsVal) : routeE (Settled unit)
| Spreadsheet_findByPk (id : JsVal) : routeE (Settled JsVal)
| Order_findAll : routeE (Settled (list Order))
| Order_findByPk (id : JsVal) : routeE (Settled (option Order))
| Order_destroy (order : Order) : routeE (Settled unit).

(** How a handler ends: [next(Error(message))] with an error made on the
    spot (or thrown inside a promise chain that ends in [next]), [next(err)]
    with an error received, a JSON body, a redirect, or nothing at all when
    an exception or a rejection has no handler. *)
Inductive Response : Type :=
| next_Error (message : string)
| next (err : JsVal)
| res_json (body : JsVal)
| res_redirect (url : string)
| no_response.

Inductive RouteReply : Type :=
| time_is (text : string)
| service_answers (err response : JsVal)
| resolves
| resolves_spreadsheet (row : JsVal)
| resolves_orders (orders : list Order)
| resolves_order (order : option Order)
| rejects (reason : JsVal).

Definition settle {A} (value : RouteReply -> option A) (reply : RouteReply)
  : option (Settled A) :=
  match reply with
  | rejects reason => Some (Rejected reason)
  | _ => Resolved <$> value reply
  end.

Definition route_answer (T : Type) (e : routeE T) (reply : RouteReply) : option T :=
  match e in routeE T return option T with
  | Date_toLocaleTimeString =>
      match reply with time_is text => Some text | _ => None end
  | sheets_service _ call =>
      match call in sheetsE T return option T with
      | spreadsheets_create _ | spreadsheets_batchUpdate _ =>
          match reply with service_answers err response => Some (err, response) | _ => None end
      end
  | Spreadsheet_create _ | Order_destroy _ =>
      settle (fun r => match r with resolves => Some tt | _ => None end) reply
  | Spreadsheet_findByPk _ =>
      settle (fun r => match r with resolves_spreadsheet row => Some row | _ => None end) reply
  | Order_findAll =>
      settle (fun r => match r with resolves_orders orders => Some orders | _ => None end) reply
  | Order_findByPk _ =>
      settle (fun r => match r with resolves_order order => Some order | _ => None end) reply
  end.

(** A call, as an entry of a run. *)
Definition called {T} (e : routeE T) : {T : Type & routeE T} := existT T e.

(** ** The Authorization header *)

(** [s.split(sep)] for a separator of one character. *)
Fixpoint string_split (sep : ascii) (s : string) : list string :=
  match s with
  | EmptyString => [EmptyString]
  | String c rest =>
      if Ascii.eqb c sep then EmptyString :: string_split sep rest
      else
        match string_split sep rest with
        | piece :: pieces => String c piece :: pieces
        | [] => [String c EmptyString]
        end
  end.

(** [auth.split(' ')[1]]. *)
Definition access_token_of (auth : string) : JsVal :=
  match string_split " " auth !! 1%nat with
  | Some piece => str piece
  | None => undefined
  end.

(** The header value the page sends: ['Bearer ' + accessToken]. *)
Definition bearer (accessToken : string) : string := "Bearer " +:+ accessToken.

(** [!auth] for what [req.get] returns: [undefined] when the header is
    absent, else its text. *)
Definition no_header (auth : option string) : bool :=
  match auth with
  | None => true
  | Some text => String.eqb text EmptyString
  end.

(** ** Handlers *)

Definition with_token (accessToken : JsVal) : forall T, sheetsE T -> routeE T :=
  fun T call => sheets_service accessToken call.

(** The arguments a callback finds in its parameters. *)
Definition arg (args : list JsVal) (i : nat) : JsVal := default undefined (args !! i).

(** The record of a new spreadsheet, read off what the helper calls back
    with. *)
Definition spreadsheet_model (spreadsheet : JsVal) : Result JsVal :=
  do id <- get spreadsheet "spreadsheetId";
  do sheetId <- sheet_id spreadsheet 0;
  do properties <- get spreadsheet "properties";
  do name <- get properties "title";
  Ok (JsObj [
    ("id", id);
    ("sheetId", sheetId);
    ("name", name)
  ]).

(** [router.post('/spreadsheets', ...)]. *)
Definition post_spreadsheets (auth : option string) (columns : list Column)
  : itree routeE (Response * list Column) :=
  if no_header auth then Ret (next_Error "Authorization required.", columns)
  else
    let accessToken := access_token_of (default EmptyString auth) in
    ITree.bind (ITree.trigger Date_toLocaleTimeString) (fun time =>
    let title := str ("Orders (" +:+ time +:+ ")") in
    ITree.bind (translate (with_token accessToken) (createSpreadsheet title columns))
      (fun '(outcome, columns) =>
        match outcome with
        | Thrown _ => Ret (no_response, columns)
        | Callback args =>
            let err := arg args 0 in
            let spreadsheet := arg args 1 in
            if truthy err then Ret (next err, columns)
            else
              match spreadsheet_model spreadsheet with
              | Throw _ => Ret (no_response, columns)
              | Ok model =>
                  ITree.bind (ITree.trigger (Spreadsheet_create model)) (fun settled =>
                    match settled with
                    | Resolved _ => Ret (res_json model, columns)
                    | Rejected _ => Ret (no_response, columns)
                    end)
              end
        end)).

(** [router.post('/spreadsheets/:id/sync', ...)]: both queries are started
    before either settles, and nothing handles a rejection of the pair. *)
Definition post_spreadsheets_sync (auth : option string) (id : string)
    (columns : list Column) : itree routeE Response :=
  if no_header auth then Ret (next_Error "Authorization required.")
  else
    let accessToken := access_token_of (default EmptyString auth) in
    ITree.bind (ITree.trigger (Spreadsheet_findByPk (str id))) (fun found =>
    ITree.bind (ITree.trigger Order_findAll) (fun all =>
      match found, all with
      | Resolved spreadsheet, Resolved orders =>
          match (do spreadsheetId <- get spreadsheet "id";
                 do sheetId <- get spreadsheet "sheetId";
                 Ok (spreadsheetId, sheetId)) with
          | Throw _ => Ret no_response
          | Ok (spreadsheetId, sheetId) =>
              ITree.bind
                (translate (with_token accessToken)
                   (sync spreadsheetId sheetId orders columns))
                (fun outcome =>
                   match outcome with
                   | Thrown _ => Ret no_response
                   | Callback args =>
                       let err := arg args 0 in
                       if truthy err then Ret (next err)
                       else Ret (res_json (int (Z.of_nat (length orders))))
                   end)
          end
      | _, _ => Ret no_response
      end)).


(** * The page script *)

(** What [makeRequest] touches: the sign-in state and the token of the
    Google client, the classes of page elements, and the HTTP request, which
    ends in its [success] or in its [error] callback. *)
Variant pageE : Type -> Type :=
| isSignedIn : pageE bool
| access_token : pageE string
| addClass (selector class : string) : pageE unit
| removeClass (selector class : string) : pageE unit
| ajax (url : string) (settings : JsVal) : pageE (bool * JsVal).

(** [callback(new Error(message))], [callback(null, response)], or an
    exception inside a callback of the request. *)
Inductive PageOutcome : Type :=
| callback_Error (message : JsVal)
| callback_response (response : JsVal)
| page_throws.

Inductive PageReply : Type :=
| signed_in (yes : bool)
| token_is (accessToken : string)
| done
| ajax_success (response : JsVal)
| ajax_error (response : JsVal).

Definition page_answer (T : Type) (e : pageE T) (reply : PageReply) : option T :=
  match e in pageE T return option T with
  | isSignedIn => match reply with signed_in yes => Some yes | _ => None end
  | access_token => match reply with token_is accessToken => Some accessToken | _ => None end
  | addClass _ _ | removeClass _ _ => match reply with done => Some tt | _ => None end
  | ajax _ _ =>
      match reply with
      | ajax_success response => Some (true, response)
      | ajax_error response => Some (false, response)
      | _ => None
      end
  end.

Definition page_called {T} (e : pageE T) : {T : Type & pageE T} := existT T e.

Definition setSpinnerActive (isActive : bool) : itree pageE unit :=
  if isActive then ITree.trigger (addClass "#spinner" "is-active")
  else ITree.trigger (removeClass "#spinner" "is-active").

Definition makeRequest (method url : string) : itree pageE PageOutcome :=
  ITree.bind (ITree.trigger isSignedIn) (fun signedIn =>
    if negb signedIn then Ret (callback_Error (str "Signin required."))
    else
      ITree.bind (ITree.trigger access_token) (fun accessToken =>
      ITree.bind (setSpinnerActive true) (fun _ =>
      let settings := JsObj [
        ("method", str method);
        ("headers", JsObj [
          ("Authorization", str (bearer accessToken))
        ])
      ] in
      ITree.bind (ITree.trigger (ajax url settings))
        (fun '((succeeded, response) : bool * JsVal) =>
        ITree.bind (setSpinnerActive false) (fun _ =>
          if succeeded return itree pageE PageOutcome
          then Ret (callback_response response)
          else
            match (do json <- get response "responseJSON"; get json "message") with
            | Ok message => Ret (callback_Error message)
            | Throw _ => Ret page_throws
            end))))).

(** ** Reading a run *)



Definition no_space (s : string) : Prop :=
  Forall (fun c => c <> " "%char) (list_ascii_of_string s).

(** * Properties *)

(** ** Number::toString on sample values *)

Example toString_samples :
  map Number_toString
      [Dec 1 0; Dec 95 (-1); Dec (-25) (-1); Dec 100 0; Dec 1 21; Dec 1 20;
       Dec 1 (-6); Dec 1 (-7); Dec 15 (-8); Dec 12345 (-2); Dec 1250 (-3); Dec 0 5]
  = ["1"; "9.5"; "-2.5"; "100"; "1e+21"; "100000000000000000000";
     "0.000001"; "1e-7"; "1.5e-7"; "123.45"; "1.25"; "0"].
Proof. reflexivity. Qed.

(** ** The column table keeps its fields and headers *)

Lemma reduce_step_layout fld acc i :
  layout (reduce_step fld acc i).2 = layout acc.2.
Proof.
  destruct acc as [result columns]. unfold reduce_step.
  destruct (columns !! i) as [column|] eqn:Hi; [|reflexivity].
  destruct (String.eqb (field column) fld); [|reflexivity].
  cbn [snd]. unfold layout. rewrite list_fmap_insert. cbn [field header].
  apply list_insert_id. rewrite list_lookup_fmap, Hi. reflexivity.
Qed.

Lemma fold_reduce_layout fld positions acc :
  layout (fold_left (reduce_step fld) positions acc).2 = layout acc.2.
Proof.
  revert acc. induction positions as [|i positions IH]; intros acc; cbn [fold_left].
  - reflexivity.
  - rewrite IH. apply reduce_step_layout.
Qed.

Lemma getColumnForField_layout fld columns ref columns' :
  getColumnForField fld columns = Ok (ref, columns') ->
  layout columns' = layout columns.
Proof.
  unfold getColumnForField. destruct columns as [|c rest]; [discriminate|].
  intros H. injection H as H.
  pose proof (fold_reduce_layout fld (seq 1 (length rest)) (0%nat, c :: rest)) as L.
  rewrite H in L. exact L.
Qed.

Lemma reachable_layout columns :
  reachable columns -> layout columns = layout COLUMNS.
Proof.
  induction 1 as [|fld columns ref columns' _ IH H].
  - reflexivity.
  - rewrite (getColumnForField_layout _ _ _ _ H). exact IH.
Qed.

Lemma layout_fields columns columns' :
  layout columns = layout columns' -> map field columns = map field columns'.
Proof.
  intros H. apply (f_equal (map fst)) in H. unfold layout in H.
  rewrite !map_map in H. exact H.
Qed.

Lemma layout_headers columns columns' :
  layout columns = layout columns' -> map header columns = map header columns'.
Proof.
  intros H. apply (f_equal (map snd)) in H. unfold layout in H.
  rewrite !map_map in H. exact H.
Qed.

(** A table with the layout of [COLUMNS] is [COLUMNS] up to the [index]
    properties. *)
Lemma layout_COLUMNS_inv columns :
  layout columns = layout COLUMNS ->
  exists i0 i1 i2 i3 i4 i5, columns = [
    mkColumn "id" "ID" i0;
    mkColumn "customerName" "Customer Name" i1;
    mkColumn "productCode" "Product Code" i2;
    mkColumn "unitsOrdered" "Units Ordered" i3;
    mkColumn "unitPrice" "Unit Price" i4;
    mkColumn "status" "Status" i5 ].
Proof.
  intros H.
  do 6 (destruct columns as [|[? ? ?] columns]; [discriminate H|]).
  destruct columns; [|discriminate H].
  cbn in H. injection H as -> -> -> -> -> -> -> -> -> -> -> ->.
  eauto 10.
Qed.

(** The lookup leaves a reachable table reachable, and so does the pivot
    builder, which only looks columns up. *)
Lemma buildPivotTableRequest_reachable sourceSheetId targetSheetId columns request columns' :
  reachable columns ->
  buildPivotTableRequest sourceSheetId targetSheetId columns = Ok (request, columns') ->
  reachable columns'.
Proof.
  intros Hc. unfold buildPivotTableRequest.
  destruct (getColumnForField "productCode" columns) as [[c1 t1]|] eqn:H1; [|discriminate].
  cbn [bindR].
  destruct (getColumnForField "unitsOrdered" t1) as [[c2 t2]|] eqn:H2; [|discriminate].
  cbn [bindR].
  destruct (getColumnForField "unitsOrdered" t2) as [[c3 t3]|] eqn:H3; [|discriminate].
  cbn [bindR].
  destruct (getColumnForField "unitPrice" t3) as [[c4 t4]|] eqn:H4; [|discriminate].
  cbn [bindR]. intros [= _ <-].
  eauto using reachable_lookup.
Qed.

(** The reducer starts at the second object: the first one is never
    compared, so a lookup of [id], or of a field that no column has, returns
    the first object and sets no [index]. *)
Example getColumnForField_samples :
  getColumnForField "id" COLUMNS = Ok (0%nat, COLUMNS) /\
  getColumnForField "total" COLUMNS = Ok (0%nat, COLUMNS) /\
  getColumnForField "unitPrice" COLUMNS =
    Ok (4%nat, <[4%nat := mkColumn "unitPrice" "Unit Price" (Some 4%nat)]> COLUMNS) /\
  getColumnForField "id" [] = Throw TypeError.
Proof. repeat split. Qed.

(** ** Maps that may throw *)

Lemma Throw_TypeError {A} (e : Exn) : @Throw A e = Throw TypeError.
Proof. destruct e. reflexivity. Qed.

Lemma mapR_ext {A B} (f g : A -> Result B) xs :
  (forall x, f x = g x) -> mapR f xs = mapR g xs.
Proof.
  intros E. induction xs as [|x xs IH]; cbn [mapR]; [reflexivity|].
  rewrite E, IH. reflexivity.
Qed.

Lemma mapR_map {A B C} (g : B -> Result C) (f : A -> B) xs :
  mapR (fun x => g (f x)) xs = mapR g (map f xs).
Proof.
  induction xs as [|x xs IH]; cbn [mapR map]; [reflexivity|].
  rewrite IH. reflexivity.
Qed.

Lemma mapR_Ok {A B} (f : A -> Result B) xs ys :
  mapR f xs = Ok ys -> Forall2 (fun x y => f x = Ok y) xs ys.
Proof.
  revert ys. induction xs as [|x xs IH]; intros ys; cbn [mapR].
  - intros [= <-]. constructor.
  - destruct (f x) as [y|e] eqn:Hx; cbn [bindR]; [|discriminate].
    destruct (mapR f xs) as [ys'|e]; cbn [bindR]; [|discriminate].
    intros [= <-]. constructor; [exact Hx | apply IH; reflexivity].
Qed.

Lemma mapR_total {A B} (f : A -> Result B) xs :
  Forall (fun x => exists y, f x = Ok y) xs -> exists ys, mapR f xs = Ok ys.
Proof.
  induction 1 as [|x xs [y Hy] _ [ys IH]]; cbn [mapR].
  - eexists; reflexivity.
  - rewrite Hy, IH. eexists; reflexivity.
Qed.

Lemma mapR_Throw {A B} (f : A -> Result B) xs x :
  x ∈ xs -> f x = Throw TypeError -> mapR f xs = Throw TypeError.
Proof.
  intros Hin Hx. induction xs as [|x' xs IH]; [inversion Hin|].
  cbn [mapR]. apply elem_of_cons in Hin as [<-|Hin].
  - rewrite Hx. reflexivity.
  - destruct (f x') as [y|e]; cbn [bindR]; [|apply Throw_TypeError].
    rewrite (IH Hin). reflexivity.
Qed.

Lemma mapR_Throw_inv {A B} (f : A -> Result B) xs e :
  mapR f xs = Throw e -> exists x, x ∈ xs /\ f x = Throw e.
Proof.
  induction xs as [|x xs IH]; cbn [mapR]; [discriminate|].
  destruct (f x) as [y|e'] eqn:Hx; cbn [bindR].
  - destruct (mapR f xs) as [ys|e']; cbn [bindR]; [discriminate|].
    intros [= ->]. destruct IH as (x' & Hin & Hx'); [reflexivity|].
    exists x'. split; [right; exact Hin | exact Hx'].
  - intros [= ->]. exists x. split; [left | exact Hx].
Qed.

(** ** The rows depend on the fields of the table only *)

Lemma buildRowsForOrders_fields orders columns columns' :
  map field columns = map field columns' ->
  buildRowsForOrders orders columns = buildRowsForOrders orders columns'.
Proof.
  intros H. unfold buildRowsForOrders. apply mapR_ext. intros order.
  rewrite (mapR_map (fun fld =>
    if String.eqb fld "unitsOrdered" then _
    else if String.eqb fld "unitPrice" then _
    else if String.eqb fld "status" then _
    else do s <- toString (prop order fld); _) field columns).
  rewrite (mapR_map (fun fld =>
    if String.eqb fld "unitsOrdered" then _
    else if String.eqb fld "unitPrice" then _
    else if String.eqb fld "status" then _
    else do s <- toString (prop order fld); _) field columns').
  rewrite H. reflexivity.
Qed.

Lemma buildRowsForOrders_COLUMNS orders :
  buildRowsForOrders orders COLUMNS = mapR row_of orders.
Proof.
  unfold buildRowsForOrders. apply mapR_ext. intros order.
  unfold row_of. cbn.
  destruct (toString (prop order "id")); cbn; [|reflexivity].
  destruct (toString (prop order "customerName")); cbn; [|reflexivity].
  destruct (toString (prop order "productCode")); cbn; reflexivity.
Qed.

Lemma buildRowsForOrders_reachable orders columns :
  reachable columns -> buildRowsForOrders orders columns = mapR row_of orders.
Proof.
  intros H. rewrite <- buildRowsForOrders_COLUMNS.
  apply buildRowsForOrders_fields, layout_fields, reachable_layout, H.
Qed.

Lemma reachable_length columns : reachable columns -> length columns = 6%nat.
Proof.
  intros H. apply reachable_layout, layout_COLUMNS_inv in H
    as (? & ? & ? & ? & ? & ? & ->). reflexivity.
Qed.

(** What [sync] does first, in terms of the rows. *)
Lemma sync_first_step spreadsheetId sheetId orders columns :
  first_step (sync spreadsheetId sheetId orders columns) =
  match buildRowsForOrders orders columns with
  | Ok rows =>
      Calls "spreadsheets.batchUpdate" (JsObj [
        ("spreadsheetId", spreadsheetId);
        ("resource", JsObj [
          ("requests", JsArr [
            JsObj [
              ("updateSheetProperties", JsObj [
                ("properties", JsObj [
                  ("sheetId", sheetId);
                  ("gridProperties", JsObj [
                    ("rowCount", int (Z.of_nat (length orders) + 1));
                    ("columnCount", int (Z.of_nat (length columns)))
                  ])
                ]);
                ("fields", str "gridProperties(rowCount,columnCount)")
              ])
            ];
            JsObj [
              ("updateCells", JsObj [
                ("start", JsObj [
                  ("sheetId", sheetId);
                  ("rowIndex", int 1);
                  ("columnIndex", int 0)
                ]);
                ("rows", JsArr rows);
                ("fields", str "*")
              ])
            ]
          ])
        ])
      ])
  | Throw e => Ends (Thrown e)
  end.
Proof.
  unfold sync, sync_request.
  destruct (buildRowsForOrders orders columns); reflexivity.
Qed.

(** ** Header row *)

(** C6: whatever sheet it is given and whatever lookups have touched the
    column table before, [buildHeaderRowRequest] writes at row 0, column 0 of
    that sheet one row of six bold string cells: ID, Customer Name, Product
    Code, Units Ordered, Unit Price, Status, in this order. *)
Theorem header_row_literal_order sheetId columns :
  reachable columns ->
  writes_header_row sheetId (buildHeaderRowRequest sheetId columns).
Proof.
  intros H. apply reachable_layout, layout_COLUMNS_inv in H
    as (i0 & i1 & i2 & i3 & i4 & i5 & ->).
  split; reflexivity.
Qed.

Lemma header_row_literal_order_witness :
  reachable COLUMNS /\
  writes_header_row (int 0) (buildHeaderRowRequest (int 0) COLUMNS).
Proof.
  split; [apply reachable_init|].
  apply (header_row_literal_order (int 0) COLUMNS). apply reachable_init.
Defined.

(** ** Pivot table *)

(** C5: from a data sheet id and a pivot sheet id, [buildPivotTableRequest]
    returns a pivot table over columns 0 to 6 of the data sheet whose rows
    are grouped by column 2, [productCode], in ascending order, whose first
    value sums column 3, [unitsOrdered], and whose second value, named
    Revenue, has the formula ='Units Ordered' * 'Unit Price', the headers of
    [unitsOrdered] and [unitPrice]. *)
Theorem pivot_groups_by_product_code sourceSheetId targetSheetId columns :
  reachable columns ->
  exists request columns',
    buildPivotTableRequest sourceSheetId targetSheetId columns = Ok (request, columns') /\
    is_pivot_of_orders sourceSheetId targetSheetId request /\
    column_is columns 2 "productCode" "Product Code" /\
    column_is columns 3 "unitsOrdered" "Units Ordered" /\
    column_is columns 4 "unitPrice" "Unit Price" /\
    length columns = 6%nat.
Proof.
  intros H. apply reachable_layout, layout_COLUMNS_inv in H
    as (i0 & i1 & i2 & i3 & i4 & i5 & ->).
  eexists _, _. split; [reflexivity|].
  split; [repeat split|].
  repeat split; eexists; (split; [reflexivity|split; reflexivity]).
Qed.

Lemma pivot_groups_by_product_code_witness :
  reachable COLUMNS /\
  exists request columns',
    buildPivotTableRequest (int 7) (int 8) COLUMNS = Ok (request, columns') /\
    is_pivot_of_orders (int 7) (int 8) request.
Proof.
  split; [apply reachable_init|].
  destruct (pivot_groups_by_product_code (int 7) (int 8) COLUMNS reachable_init)
    as (request & columns' & Hbuild & Hpivot & _).
  exists request, columns'. split; [exact Hbuild | exact Hpivot].
Defined.

(** ** Creating a spreadsheet *)


Lemma createSpreadsheet_first_step title columns :
  first_step (createSpreadsheet title columns) =
  Calls "spreadsheets.create" (create_request title).
Proof. reflexivity. Qed.

(** A whole run against a service that accepts both calls: the second call
    carries the header row, the pivot table, its format and the chart, and
    the callback receives the spreadsheet. *)
Example createSpreadsheet_run :
  let '(calls, outcome) :=
    run [(null, created_response); (null, undefined)]
        (createSpreadsheet (str "Orders") COLUMNS) in
  map fst calls = ["spreadsheets.create"; "spreadsheets.batchUpdate"] /\
  (calls !! 1%nat ≫= fun call => at_path call.2 [K "resource"; K "requests"]) =
    Some (JsArr [
      buildHeaderRowRequest (int 0) COLUMNS;
      default undefined (fst <$> to_option (buildPivotTableRequest (int 0) (int 42) COLUMNS));
      buildFormatPivotTableRequest (int 42);
      buildAddChartRequest (int 42)
    ]) /\
  fst <$> outcome = Some (Callback [null; created_spreadsheet]).
Proof. repeat split. Qed.

(** C8: the creation request is a function of the title alone.  Whatever
    the column table holds when [createSpreadsheet] is called (so also on a
    second call, after the first one has run the lookups that update the
    table), the operation sends the same request: the given title, and the
    Data and Pivot sheets. *)
Theorem create_request_deterministic title :
  exists request,
    (forall columns,
       first_step (createSpreadsheet title columns) = Calls "spreadsheets.create" request) /\
    at_path request [K "resource"] =
      Some (JsObj [("properties", JsObj [("title", title)]); ("sheets", two_sheets)]).
Proof.
  exists (create_request title). split; [intros columns|]; reflexivity.
Qed.




(** ** Synchronising orders *)

Lemma row_of_total order : has_text_fields order -> exists row, row_of order = Ok row.
Proof.
  intros H. unfold has_text_fields, text_fields in H.
  apply Forall_cons in H as [[id Hid] H].
  apply Forall_cons in H as [[customerName Hcn] H].
  apply Forall_cons in H as [[productCode Hpc] _].
  unfold row_of. rewrite Hid, Hcn, Hpc. eexists; reflexivity.
Qed.

Lemma row_of_in_column_order order row :
  row_of order = Ok row -> row_in_column_order order row.
Proof.
  unfold row_of.
  destruct (toString (prop order "id")) as [id|] eqn:Hid; [|discriminate].
  destruct (toString (prop order "customerName")) as [customerName|] eqn:Hcn; [|discriminate].
  destruct (toString (prop order "productCode")) as [productCode|] eqn:Hpc; [|discriminate].
  intros [= <-]. exists id, customerName, productCode. eexists.
  repeat split; first [assumption | reflexivity].
Qed.

Lemma rows_total orders columns :
  reachable columns -> Forall has_text_fields orders ->
  exists rows, buildRowsForOrders orders columns = Ok rows.
Proof.
  intros Hc Ho. rewrite (buildRowsForOrders_reachable _ _ Hc).
  apply mapR_total. eapply Forall_impl; [exact Ho|]. apply row_of_total.
Qed.

Lemma rows_in_column_order orders columns rows :
  reachable columns -> buildRowsForOrders orders columns = Ok rows ->
  Forall2 row_in_column_order orders rows.
Proof.
  intros Hc. rewrite (buildRowsForOrders_reachable _ _ Hc). intros H.
  apply mapR_Ok in H. eapply Forall2_impl; [exact H|].
  apply row_of_in_column_order.
Qed.

(** C1: for every list of orders, the request [sync] sends resizes the grid
    to [orders.length + 1] rows and 6 columns, and updates cells from row 1
    with one row per order, each of six cells in the order id, customerName,
    productCode, unitsOrdered, unitPrice, status.  The request is sent
    whenever every order has the three fields that are stringified. *)
Theorem sync_resizes_and_writes_rows spreadsheetId sheetId orders columns :
  reachable columns ->
  (Forall has_text_fields orders ->
   exists request,
     first_step (sync spreadsheetId sheetId orders columns) =
       Calls "spreadsheets.batchUpdate" request) /\
  (forall request,
     first_step (sync spreadsheetId sheetId orders columns) =
       Calls "spreadsheets.batchUpdate" request ->
     resizes_and_writes sheetId orders request).
Proof.
  intros Hc. rewrite sync_first_step, (reachable_length _ Hc). split.
  - intros Ho. destruct (rows_total orders columns Hc Ho) as [rows ->].
    eexists; reflexivity.
  - intros request.
    destruct (buildRowsForOrders orders columns) as [rows|] eqn:Hrows; [|discriminate].
    intros [= <-]. pose proof (rows_in_column_order _ _ _ Hc Hrows) as Hin.
    repeat split. exists rows. split; [reflexivity|].
    split; [symmetry; exact (Forall2_length _ _ _ Hin) | exact Hin].
Qed.

Lemma sync_resizes_and_writes_rows_witness :
  reachable COLUMNS /\
  Forall has_text_fields [order1] /\
  exists request,
    first_step (sync (str "s1") (int 0) [order1] COLUMNS) =
      Calls "spreadsheets.batchUpdate" request /\
    resizes_and_writes (int 0) [order1] request.
Proof.
  assert (Ho : Forall has_text_fields [order1]).
  { repeat constructor; eexists; reflexivity. }
  split; [apply reachable_init|]. split; [exact Ho|].
  destruct (sync_resizes_and_writes_rows (str "s1") (int 0) [order1] COLUMNS reachable_init)
    as [Hsends Hshape].
  destruct (Hsends Ho) as [request Hrequest].
  exists request. split; [exact Hrequest | exact (Hshape request Hrequest)].
Defined.

(** C10: the batch [sync] sends has exactly two sub-requests, the grid
    resize ([updateSheetProperties]) first and the cell update
    ([updateCells]) second; it is sent whenever the rows can be built. *)
Theorem sync_batch_is_resize_then_cells spreadsheetId sheetId orders columns :
  (forall rows,
     buildRowsForOrders orders columns = Ok rows ->
     exists request,
       first_step (sync spreadsheetId sheetId orders columns) =
         Calls "spreadsheets.batchUpdate" request) /\
  (forall request,
     first_step (sync spreadsheetId sheetId orders columns) =
       Calls "spreadsheets.batchUpdate" request ->
     exists resize cells,
       at_path request [K "resource"; K "requests"] =
         Some (JsArr [
           JsObj [("updateSheetProperties", resize)];
           JsObj [("updateCells", cells)]
         ])).
Proof.
  rewrite sync_first_step. split.
  - intros rows ->. eexists; reflexivity.
  - intros request.
    destruct (buildRowsForOrders orders columns) as [rows|]; [|discriminate].
    intros [= <-]. eexists _, _. reflexivity.
Qed.

Lemma sync_batch_is_resize_then_cells_witness :
  exists request resize cells,
    first_step (sync (str "s1") (int 0) [order1; order1] COLUMNS) =
      Calls "spreadsheets.batchUpdate" request /\
    at_path request [K "resource"; K "requests"] =
      Some (JsArr [
        JsObj [("updateSheetProperties", resize)];
        JsObj [("updateCells", cells)]
      ]).
Proof.
  destruct (sync_batch_is_resize_then_cells (str "s1") (int 0) [order1; order1] COLUMNS)
    as [Hsends Hshape].
  destruct (Hsends _ eq_refl) as [request Hrequest].
  destruct (Hshape request Hrequest) as (resize & cells & Hbatch).
  exists request, resize, cells. split; [exact Hrequest | exact Hbatch].
Defined.

(** ** The worked example, and the fields written as text *)

Lemma row_lookup orders columns rows j order row :
  reachable columns ->
  buildRowsForOrders orders columns = Ok rows ->
  orders !! j = Some order -> rows !! j = Some row ->
  row_of order = Ok row.
Proof.
  intros Hc. rewrite (buildRowsForOrders_reachable _ _ Hc). intros H Ho Hr.
  apply mapR_Ok in H. exact (Forall2_lookup_lr _ _ _ _ _ _ H Ho Hr).
Qed.

(** C7: for the single order [{id: 1, customerName: A, productCode: X1,
    unitsOrdered: 3, unitPrice: 9.5, status: PENDING}], [sync] sends a resize
    to 2 rows and 6 columns and one row of six cells that enter the strings
    1, A, X1, the numbers 3 and 9.5, and the string PENDING.  And for any
    orders, each cell of a column other than unitsOrdered, unitPrice and
    status enters, as a string, the text [toString] gives for the field. *)
Theorem sync_example_and_text_cells columns :
  reachable columns ->
  (forall spreadsheetId sheetId,
     exists request,
       first_step (sync spreadsheetId sheetId [order1] columns) =
         Calls "spreadsheets.batchUpdate" request /\
       example_request request) /\
  (forall orders rows j order row i column,
     buildRowsForOrders orders columns = Ok rows ->
     orders !! j = Some order -> rows !! j = Some row ->
     columns !! i = Some column ->
     field column <> "unitsOrdered" -> field column <> "unitPrice" ->
     field column <> "status" ->
     exists text,
       toString (prop order (field column)) = Ok text /\
       at_path row [K "values"; I i; K "userEnteredValue"] =
         Some (JsObj [("stringValue", str text)])).
Proof.
  intros Hc. split.
  - intros spreadsheetId sheetId.
    rewrite sync_first_step, (reachable_length _ Hc),
      (buildRowsForOrders_reachable _ _ Hc).
    eexists. split; [reflexivity|].
    repeat split. eexists. split; reflexivity.
  - intros orders rows j order row i column Hrows Ho Hr Hi Hn1 Hn2 Hn3.
    pose proof (row_lookup _ _ _ _ _ _ Hc Hrows Ho Hr) as Hrow.
    apply reachable_layout, layout_COLUMNS_inv in Hc
      as (i0 & i1 & i2 & i3 & i4 & i5 & ->).
    unfold row_of in Hrow.
    destruct (toString (prop order "id")) as [id|] eqn:Hid; [|discriminate].
    destruct (toString (prop order "customerName")) as [customerName|] eqn:Hcn;
      [|discriminate].
    destruct (toString (prop order "productCode")) as [productCode|] eqn:Hpc;
      [|discriminate].
    injection Hrow as <-.
    do 6 (destruct i as [|i];
          [injection Hi as <-; cbn [field] in *;
           first [congruence | eexists; split; [eassumption|reflexivity]]|]).
    discriminate Hi.
Qed.

Lemma sync_example_and_text_cells_witness :
  reachable COLUMNS /\
  exists request,
    first_step (sync (str "s1") (int 0) [order1] COLUMNS) =
      Calls "spreadsheets.batchUpdate" request /\
    example_request request.
Proof.
  split; [apply reachable_init|].
  apply (proj1 (sync_example_and_text_cells COLUMNS reachable_init)).
Defined.

(** ** Number formats *)

(** C2, as the claim has it, at the sample order: the pattern of the
    unitPrice cell is not the nine characters [$#,##0.00]; it has eleven,
    the dollar sign standing between two double quotes. *)
Lemma currency_pattern_is_quoted :
  exists row pattern,
    buildRowsForOrders [order1] COLUMNS = Ok [row] /\
    at_path row [K "values"; I 4; K "userEnteredFormat"; K "numberFormat"; K "pattern"] =
      Some (str pattern) /\
    String.eqb pattern "$#,##0.00" = false /\
    String.length pattern = 11%nat /\
    String.get 0 pattern = Some dquote /\
    String.get 2 pattern = Some dquote.
Proof. eexists _, _. repeat split. Qed.

Lemma row_of_number_formats order row : row_of order = Ok row -> number_formats row.
Proof.
  unfold row_of.
  destruct (toString (prop order "id")); [|discriminate].
  destruct (toString (prop order "customerName")); [|discriminate].
  destruct (toString (prop order "productCode")); [|discriminate].
  intros [= <-]. split; reflexivity.
Qed.

(** C2, amended: for every order, the unitsOrdered cell has the NUMBER
    format with pattern [#,##0], and the unitPrice cell has the CURRENCY
    format whose pattern is a double quote, the dollar sign, a double quote,
    then [#,##0.00]. *)
Theorem number_and_currency_formats orders columns :
  reachable columns ->
  (Forall has_text_fields orders ->
   exists rows, buildRowsForOrders orders columns = Ok rows) /\
  (forall rows,
     buildRowsForOrders orders columns = Ok rows ->
     length rows = length orders /\ Forall number_formats rows).
Proof.
  intros Hc. split; [apply rows_total, Hc|].
  intros rows. rewrite (buildRowsForOrders_reachable _ _ Hc). intros H.
  apply mapR_Ok in H. split; [symmetry; exact (Forall2_length _ _ _ H)|].
  induction H as [|order row orders rows Hrow _ IH]; constructor.
  - exact (row_of_number_formats _ _ Hrow).
  - exact IH.
Qed.

Lemma number_and_currency_formats_witness :
  reachable COLUMNS /\
  exists rows,
    buildRowsForOrders [order1] COLUMNS = Ok rows /\
    length rows = 1%nat /\ Forall number_formats rows.
Proof.
  split; [apply reachable_init|].
  destruct (number_and_currency_formats [order1] COLUMNS reachable_init) as [Hbuilt Hrows].
  destruct Hbuilt as [rows Hbuild].
  { repeat constructor; eexists; reflexivity. }
  exists rows. split; [exact Hbuild | exact (Hrows rows Hbuild)].
Defined.

(** ** Orders with a field missing *)

(** C3, as the claim has it, at an order without a status: the builder does
    not fail; it returns the row, whose last cell enters [undefined]. *)
Lemma missing_status_is_built :
  order_without_status !! "status" = None /\
  exists row,
    buildRowsForOrders [order_without_status] COLUMNS = Ok [row] /\
    at_path row [K "values"; I 5; K "userEnteredValue"] =
      Some (JsObj [("stringValue", undefined)]).
Proof. split; [reflexivity|]. eexists. split; reflexivity. Qed.

Lemma prop_missing (order : Order) fld : order !! fld = None -> prop order fld = PUndefined.
Proof. intros H. unfold prop. rewrite H. reflexivity. Qed.

Lemma row_of_missing_text order fld :
  fld ∈ text_fields -> order !! fld = None -> row_of order = Throw TypeError.
Proof.
  intros Hfld Hmissing. apply prop_missing in Hmissing.
  unfold text_fields in Hfld. unfold row_of.
  repeat (apply elem_of_cons in Hfld as [->|Hfld]);
    [| | |inversion Hfld]; rewrite Hmissing; cbn [toString bindR].
  - reflexivity.
  - destruct (toString (prop order "id")); cbn [bindR];
      [reflexivity | apply Throw_TypeError].
  - destruct (toString (prop order "id")); cbn [bindR]; [|apply Throw_TypeError].
    destruct (toString (prop order "customerName")); cbn [bindR];
      [reflexivity | apply Throw_TypeError].
Qed.

(** C3, amended: an order without an id, a customerName or a productCode
    makes the row builder throw the [TypeError] of the failed [toString],
    whichever other orders come with it.  An order that has these three but
    lacks unitsOrdered, unitPrice or status is built all the same, and the
    cell of the missing field enters [undefined]: no other value is put in
    its place. *)
Theorem missing_field_throws_or_stays_undefined columns :
  reachable columns ->
  (forall (orders : list Order) order fld,
     order ∈ orders -> fld ∈ text_fields -> order !! fld = None ->
     buildRowsForOrders orders columns = Throw TypeError) /\
  (forall (order : Order) fld slot i,
     has_text_fields order -> (fld, slot, i) ∈ copied_fields -> order !! fld = None ->
     exists row,
       buildRowsForOrders [order] columns = Ok [row] /\
       at_path row [K "values"; I i; K "userEnteredValue"] =
         Some (JsObj [(slot, undefined)])).
Proof.
  intros Hc. split.
  - intros orders order fld Hin Hfld Hmissing.
    rewrite (buildRowsForOrders_reachable _ _ Hc).
    apply (mapR_Throw _ _ order Hin), (row_of_missing_text _ fld); assumption.
  - intros order fld slot i Htext Hfld Hmissing.
    rewrite (buildRowsForOrders_reachable _ _ Hc).
    destruct (row_of_total _ Htext) as [row Hrow].
    exists row. cbn [mapR]. rewrite Hrow. split; [reflexivity|].
    apply prop_missing in Hmissing. unfold row_of in Hrow.
    destruct (toString (prop order "id")); [|discriminate].
    destruct (toString (prop order "customerName")); [|discriminate].
    destruct (toString (prop order "productCode")); [|discriminate].
    injection Hrow as <-. unfold copied_fields in Hfld.
    repeat (apply elem_of_cons in Hfld as [[= -> -> ->]|Hfld]);
      [| | |inversion Hfld]; cbn; rewrite Hmissing; reflexivity.
Qed.

Lemma missing_field_throws_or_stays_undefined_witness :
  reachable COLUMNS /\
  delete "id" order1 ∈ [order1; delete "id" order1] /\
  "id" ∈ text_fields /\
  delete "id" order1 !! "id" = None /\
  buildRowsForOrders [order1; delete "id" order1] COLUMNS = Throw TypeError.
Proof.
  assert (Hin : delete "id" order1 ∈ [order1; delete "id" order1]).
  { right. left. }
  assert (Hfld : "id" ∈ text_fields). { left. }
  split; [apply reachable_init|]. split; [exact Hin|]. split; [exact Hfld|].
  split; [reflexivity|].
  apply (proj1 (missing_field_throws_or_stays_undefined COLUMNS reachable_init)
           _ (delete "id" order1) "id" Hin Hfld).
  reflexivity.
Defined.

(** ** The status cell *)

Lemma prop_insert_eq (order : Order) fld v : prop (<[fld := v]> order) fld = v.
Proof. unfold prop. rewrite lookup_insert_eq. reflexivity. Qed.

Lemma prop_insert_ne (order : Order) fld fld' v :
  fld <> fld' -> prop (<[fld := v]> order) fld' = prop order fld'.
Proof. intros H. unfold prop. rewrite lookup_insert_ne by exact H. reflexivity. Qed.

Lemma has_text_fields_status (order : Order) v :
  has_text_fields order -> has_text_fields (<["status" := v]> order).
Proof.
  unfold has_text_fields, text_fields. intros H.
  apply Forall_cons in H as [Hid H].
  apply Forall_cons in H as [Hcn H].
  apply Forall_cons in H as [Hpc _].
  repeat constructor; rewrite prop_insert_ne by discriminate; assumption.
Qed.

(** C4: whatever the status of an order is, a value of the list or any
    other, the builder does not reject it: the status cell enters that very
    value in its string slot (a string, when the status is one) under a
    strict one-of-list validation whose values are PENDING, SHIPPED and
    DELIVERED. *)
Theorem status_cell_validated_not_checked columns :
  reachable columns ->
  (forall (order : Order) status,
     has_text_fields order ->
     exists row, buildRowsForOrders [<["status" := status]> order] columns = Ok [row]) /\
  (forall orders rows j (order : Order) row,
     buildRowsForOrders orders columns = Ok rows ->
     orders !! j = Some order -> rows !! j = Some row ->
     exists cell,
       at_path row [K "values"; I 5] = Some cell /\
       status_validation cell /\
       entered cell = Some (JsObj [("stringValue", JsPrim (prop order "status"))]) /\
       forall text, order !! "status" = Some (PStr text) ->
         entered cell = Some (JsObj [("stringValue", str text)])).
Proof.
  intros Hc. split.
  - intros order status Htext.
    destruct (rows_total [<["status" := status]> order] columns Hc) as [rows Hrows].
    { constructor; [apply has_text_fields_status, Htext | constructor]. }
    pose proof Hrows as Hlen.
    rewrite (buildRowsForOrders_reachable _ _ Hc) in Hlen.
    apply mapR_Ok, Forall2_length in Hlen.
    destruct rows as [|row [|? ?]]; try discriminate Hlen.
    exists row. exact Hrows.
  - intros orders rows j order row Hrows Ho Hr.
    pose proof (row_lookup _ _ _ _ _ _ Hc Hrows Ho Hr) as Hrow.
    unfold row_of in Hrow.
    destruct (toString (prop order "id")); [|discriminate].
    destruct (toString (prop order "customerName")); [|discriminate].
    destruct (toString (prop order "productCode")); [|discriminate].
    injection Hrow as <-. eexists. split; [reflexivity|].
    split; [split; reflexivity|]. split; [reflexivity|].
    intros text Hstatus. unfold prop. rewrite Hstatus. reflexivity.
Qed.

Lemma status_cell_validated_not_checked_witness :
  reachable COLUMNS /\
  has_text_fields order1 /\
  exists row,
    buildRowsForOrders [<["status" := PStr "LOST"]> order1] COLUMNS = Ok [row].
Proof.
  assert (Htext : has_text_fields order1).
  { repeat constructor; eexists; reflexivity. }
  split; [apply reachable_init|]. split; [exact Htext|].
  apply (proj1 (status_cell_validated_not_checked COLUMNS reachable_init)
           order1 (PStr "LOST") Htext).
Defined.

(** * Further properties of the helper *)

(** ** Lookups in the column table *)

Ltac six_columns H :=
  apply layout_COLUMNS_inv in H as (?i0 & ?i1 & ?i2 & ?i3 & ?i4 & ?i5 & ->).

Lemma eqb_ne (a b : string) : a <> b -> String.eqb a b = false.
Proof. apply String.eqb_neq. Qed.

(** On a table laid out as [COLUMNS], a lookup either finds its field at a
    position from 1 on and sets [index] there, or compares nothing equal
    and returns the first column with the table as it was. *)
Lemma getColumnForField_cases columns fld :
  layout columns = layout COLUMNS ->
  (exists i column,
     (1 <= i)%nat /\ columns !! i = Some column /\ field column = fld /\
     getColumnForField fld columns = Ok (i, <[i := with_index column i]> columns)) \/
  ((forall i column, (1 <= i)%nat -> columns !! i = Some column -> field column <> fld) /\
   getColumnForField fld columns = Ok (0%nat, columns)).
Proof.
  intros H. six_columns H.
  destruct (String.eqb_spec "customerName" fld) as [<-|H1];
    [left; exists 1%nat; eexists; repeat split; lia|].
  destruct (String.eqb_spec "productCode" fld) as [<-|H2];
    [left; exists 2%nat; eexists; repeat split; lia|].
  destruct (String.eqb_spec "unitsOrdered" fld) as [<-|H3];
    [left; exists 3%nat; eexists; repeat split; lia|].
  destruct (String.eqb_spec "unitPrice" fld) as [<-|H4];
    [left; exists 4%nat; eexists; repeat split; lia|].
  destruct (String.eqb_spec "status" fld) as [<-|H5];
    [left; exists 5%nat; eexists; repeat split; lia|].
  right. split.
  - intros i column Hi Hc.
    destruct i as [|i]; [lia|].
    do 5 (destruct i as [|i]; [injection Hc as <-; assumption|]).
    discriminate Hc.
  - unfold getColumnForField. cbn [length seq fold_left]. unfold reduce_step.
    repeat (cbn -[String.eqb]; rewrite eqb_ne by assumption).
    reflexivity.
Qed.

Lemma reachable_indexes columns :
  reachable columns ->
  forall i column, columns !! i = Some column ->
    index column = None \/ ((1 <= i)%nat /\ index column = Some i).
Proof.
  induction 1 as [|fld columns ref columns' Hc IH Hget].
  - intros i column Hi.
    do 6 (destruct i as [|i]; [injection Hi as <-; left; reflexivity|]).
    discriminate Hi.
  - intros j column' Hj.
    destruct (getColumnForField_cases columns fld (reachable_layout _ Hc))
      as [(i & column & Hi & Hcol & _ & Hfound)|[_ Hnone]].
    + rewrite Hfound in Hget. injection Hget as _ <-.
      destruct (decide (i = j)) as [->|Hne].
      * rewrite list_lookup_insert_eq in Hj by (eapply lookup_lt_Some; eassumption).
        injection Hj as <-. right. split; [exact Hi | reflexivity].
      * rewrite list_lookup_insert_ne in Hj by exact Hne. exact (IH _ _ Hj).
    + rewrite Hnone in Hget. injection Hget as _ <-. exact (IH _ _ Hj).
Qed.

(** X1: a lookup of the field of a column other than the first returns
    that column and sets its [index] to its position; nothing else in the
    table changes, and the [index] read through the result is the
    position. *)
Theorem getColumnForField_sets_index columns fld i column :
  reachable columns ->
  columns !! i = Some column -> field column = fld -> (1 <= i)%nat ->
  getColumnForField fld columns = Ok (i, <[i := with_index column i]> columns) /\
  index_of (<[i := with_index column i]> columns) i = int (Z.of_nat i) /\
  header_of (<[i := with_index column i]> columns) i = str (header column).
Proof.
  intros Hc Hi Hfld Hpos. apply reachable_layout in Hc. six_columns Hc.
  destruct i as [|i]; [lia|].
  do 5 (destruct i as [|i];
        [injection Hi as <-; cbn [field] in Hfld; subst fld; repeat split|]).
  discriminate Hi.
Qed.

Lemma getColumnForField_sets_index_witness :
  reachable COLUMNS /\
  getColumnForField "unitPrice" COLUMNS =
    Ok (4%nat, <[4%nat := mkColumn "unitPrice" "Unit Price" (Some 4%nat)]> COLUMNS).
Proof.
  split; [apply reachable_init|].
  apply (getColumnForField_sets_index COLUMNS "unitPrice" 4
           (mkColumn "unitPrice" "Unit Price" None) reachable_init eq_refl eq_refl).
  lia.
Defined.

(** X2: the reducer never compares the first column.  A lookup of a field
    that no column from the second on has (so a lookup of [id], and a lookup
    of an unknown field) returns the first column, changes nothing, and the
    [index] read through the result is [undefined]. *)
Theorem getColumnForField_falls_back_to_first columns fld :
  reachable columns ->
  (forall i column, (1 <= i)%nat -> columns !! i = Some column -> field column <> fld) ->
  getColumnForField fld columns = Ok (0%nat, columns) /\
  index_of columns 0 = undefined /\
  header_of columns 0 = str "ID".
Proof.
  intros Hc Hne.
  destruct (getColumnForField_cases columns fld (reachable_layout _ Hc))
    as [(i & column & Hi & Hcol & Hfld & _)|[_ Hnone]].
  { destruct (Hne i column Hi Hcol Hfld). }
  split; [exact Hnone|].
  pose proof (reachable_indexes _ Hc 0%nat) as H0.
  apply reachable_layout in Hc. six_columns Hc.
  destruct (H0 _ eq_refl) as [Hidx|[Hpos _]]; [|lia].
  cbn [index] in Hidx. subst. split; reflexivity.
Qed.

Lemma getColumnForField_falls_back_to_first_witness :
  reachable COLUMNS /\
  getColumnForField "id" COLUMNS = Ok (0%nat, COLUMNS) /\
  index_of COLUMNS 0 = undefined.
Proof.
  split; [apply reachable_init|].
  assert (Hne : forall i column, (1 <= i)%nat -> COLUMNS !! i = Some column ->
                                 field column <> "id").
  { intros i column Hi Hc. destruct i as [|i]; [lia|].
    do 5 (destruct i as [|i]; [injection Hc as <-; discriminate|]).
    discriminate Hc. }
  destruct (getColumnForField_falls_back_to_first COLUMNS "id" reachable_init Hne)
    as (Hget & Hidx & _).
  split; [exact Hget | exact Hidx].
Defined.

(** X3: whatever lookups have run, the table still has its six columns
    with their fields and headers in the original order, the first column
    has no [index], and a column that has one has its own position. *)
Theorem reachable_table_invariant columns :
  reachable columns ->
  map field columns = map field COLUMNS /\
  map header columns = map header COLUMNS /\
  (index <$> columns !! 0%nat) = Some None /\
  forall i column, columns !! i = Some column ->
    index column = None \/ index column = Some i.
Proof.
  intros Hc. pose proof (reachable_layout _ Hc) as Hl.
  split; [exact (layout_fields _ _ Hl)|].
  split; [exact (layout_headers _ _ Hl)|].
  split.
  - pose proof (reachable_indexes _ Hc 0%nat) as H0. six_columns Hl.
    destruct (H0 _ eq_refl) as [Hidx|[Hpos _]]; [|lia].
    cbn [index] in Hidx. subst. reflexivity.
  - intros i column Hi.
    destruct (reachable_indexes _ Hc i column Hi) as [H|[_ H]]; auto.
Qed.

Lemma reachable_table_invariant_witness :
  reachable (<[4%nat := mkColumn "unitPrice" "Unit Price" (Some 4%nat)]> COLUMNS) /\
  map field (<[4%nat := mkColumn "unitPrice" "Unit Price" (Some 4%nat)]> COLUMNS) =
    map field COLUMNS.
Proof.
  assert (Hc : reachable (<[4%nat := mkColumn "unitPrice" "Unit Price" (Some 4%nat)]> COLUMNS)).
  { apply (reachable_lookup "unitPrice" COLUMNS 4); [apply reachable_init | reflexivity]. }
  split; [exact Hc|].
  apply (reachable_table_invariant _ Hc).
Defined.

(** X4: a lookup repeated on the table it left behind returns the same
    column and changes nothing more. *)
Theorem getColumnForField_idempotent columns fld ref columns' :
  reachable columns ->
  getColumnForField fld columns = Ok (ref, columns') ->
  getColumnForField fld columns' = Ok (ref, columns').
Proof.
  intros Hc Hget.
  destruct (getColumnForField_cases columns fld (reachable_layout _ Hc))
    as [(i & column & Hi & Hcol & Hfld & Hfound)|[_ Hnone]].
  - rewrite Hfound in Hget. injection Hget as <- <-.
    apply reachable_layout in Hc. six_columns Hc.
    destruct i as [|i]; [lia|].
    do 5 (destruct i as [|i];
          [injection Hcol as <-; cbn [field] in Hfld; subst fld; reflexivity|]).
    discriminate Hcol.
  - rewrite Hnone in Hget. injection Hget as <- <-. exact Hnone.
Qed.

Lemma getColumnForField_idempotent_witness :
  reachable COLUMNS /\
  getColumnForField "status" COLUMNS =
    Ok (5%nat, <[5%nat := mkColumn "status" "Status" (Some 5%nat)]> COLUMNS) /\
  getColumnForField "status" (<[5%nat := mkColumn "status" "Status" (Some 5%nat)]> COLUMNS) =
    Ok (5%nat, <[5%nat := mkColumn "status" "Status" (Some 5%nat)]> COLUMNS).
Proof.
  split; [apply reachable_init|]. split; [reflexivity|].
  apply (getColumnForField_idempotent COLUMNS "status" 5 _ reachable_init). reflexivity.
Defined.

(** ** The pivot builder and the table *)

Lemma buildPivotTableRequest_total sourceSheetId targetSheetId columns :
  reachable columns ->
  exists request columns',
    buildPivotTableRequest sourceSheetId targetSheetId columns = Ok (request, columns').
Proof.
  intros Hc. apply reachable_layout in Hc. six_columns Hc.
  eexists _, _. reflexivity.
Qed.

(** X5: the pivot request is the same whatever lookups have run before.
    Building it sets the [index] of the productCode, unitsOrdered and
    unitPrice columns to 2, 3 and 4 and leaves the other columns as they
    were, and building it again changes nothing. *)
Theorem pivot_request_ignores_table sourceSheetId targetSheetId columns :
  reachable columns ->
  exists request columns',
    buildPivotTableRequest sourceSheetId targetSheetId columns = Ok (request, columns') /\
    fst <$> to_option (buildPivotTableRequest sourceSheetId targetSheetId COLUMNS) =
      Some request /\
    buildPivotTableRequest sourceSheetId targetSheetId columns' = Ok (request, columns') /\
    map index columns' =
      (take 2 (map index columns) ++ [Some 2; Some 3; Some 4] ++ drop 5 (map index columns))%nat%list /\
    layout columns' = layout columns.
Proof.
  intros Hc. apply reachable_layout in Hc. six_columns Hc.
  eexists _, _. repeat split.
Qed.

Lemma pivot_request_ignores_table_witness :
  reachable COLUMNS /\
  exists request columns',
    buildPivotTableRequest (int 0) (int 42) COLUMNS = Ok (request, columns') /\
    buildPivotTableRequest (int 0) (int 42) columns' = Ok (request, columns') /\
    map index columns' = [None; None; Some 2; Some 3; Some 4; None]%nat.
Proof.
  split; [apply reachable_init|].
  destruct (pivot_request_ignores_table (int 0) (int 42) COLUMNS reachable_init)
    as (request & columns' & H1 & _ & H2 & H3 & _).
  exists request, columns'. split; [exact H1|]. split; [exact H2 | exact H3].
Defined.

(** ** Rows of several orders *)

Lemma mapR_app {A B} (f : A -> Result B) xs ys :
  mapR f (xs ++ ys)%list =
  do a <- mapR f xs; do b <- mapR f ys; Ok (a ++ b)%list.
Proof.
  induction xs as [|x xs IH]; cbn [mapR app bindR].
  - destruct (mapR f ys); reflexivity.
  - destruct (f x); cbn [bindR]; [|reflexivity].
    rewrite IH. destruct (mapR f xs); cbn [bindR]; [|reflexivity].
    destruct (mapR f ys); reflexivity.
Qed.

(** X6: the rows of two lists of orders put end to end are the rows of
    the first followed by the rows of the second, and the builder throws on
    the whole exactly when it throws on one of the two, whatever the table
    holds. *)
Theorem buildRowsForOrders_app orders1 orders2 columns :
  buildRowsForOrders (orders1 ++ orders2)%list columns =
  do rows1 <- buildRowsForOrders orders1 columns;
  do rows2 <- buildRowsForOrders orders2 columns;
  Ok (rows1 ++ rows2)%list.
Proof. unfold buildRowsForOrders. apply mapR_app. Qed.

Lemma toString_nullish v : (exists s, toString v = Ok s) <-> nullish v = false.
Proof.
  destruct v; cbn; split; intros H;
    first [discriminate | reflexivity | eexists; reflexivity | destruct H; discriminate].
Qed.

Lemma toString_Throw v e : toString v = Throw e <-> nullish v = true.
Proof. destruct v, e; cbn; split; intros H; first [discriminate | reflexivity]. Qed.

Lemma row_of_Throw order e :
  row_of order = Throw e -> exists fld, fld ∈ text_fields /\ nullish (prop order fld) = true.
Proof.
  unfold row_of, text_fields.
  destruct (toString (prop order "id")) eqn:Hid; cbn [bindR].
  2: { intros _. exists "id". split; [left | eapply toString_Throw, Hid]. }
  destruct (toString (prop order "customerName")) eqn:Hcn; cbn [bindR].
  2: { intros _. exists "customerName".
       split; [right; left | eapply toString_Throw, Hcn]. }
  destruct (toString (prop order "productCode")) eqn:Hpc; cbn [bindR]; [discriminate|].
  intros _. exists "productCode".
  split; [right; right; left | eapply toString_Throw, Hpc].
Qed.

Lemma row_of_nullish order fld :
  fld ∈ text_fields -> nullish (prop order fld) = true -> row_of order = Throw TypeError.
Proof.
  intros Hfld Hnull. apply (toString_Throw _ TypeError) in Hnull.
  unfold text_fields in Hfld. unfold row_of.
  repeat (apply elem_of_cons in Hfld as [->|Hfld]);
    [| | |inversion Hfld]; rewrite Hnull; cbn [bindR].
  - reflexivity.
  - destruct (toString (prop order "id")); cbn [bindR];
      [reflexivity | apply Throw_TypeError].
  - destruct (toString (prop order "id")); cbn [bindR]; [|apply Throw_TypeError].
    destruct (toString (prop order "customerName")); cbn [bindR];
      [reflexivity | apply Throw_TypeError].
Qed.

(** X7: the row builder throws, a [TypeError], exactly when some order has
    [undefined] or [null] for its id, its customerName or its productCode;
    no other property of an order can make it fail. *)
Theorem rows_throw_iff_text_field_nullish (orders : list Order) columns :
  reachable columns ->
  (buildRowsForOrders orders columns = Throw TypeError <->
   exists order fld,
     order ∈ orders /\ fld ∈ text_fields /\ nullish (prop order fld) = true) /\
  ((exists rows, buildRowsForOrders orders columns = Ok rows) <->
   forall order fld,
     order ∈ orders -> fld ∈ text_fields -> nullish (prop order fld) = false).
Proof.
  intros Hc. rewrite (buildRowsForOrders_reachable _ _ Hc).
  assert (Hthrow : mapR row_of orders = Throw TypeError <->
    exists order fld, order ∈ orders /\ fld ∈ text_fields /\ nullish (prop order fld) = true).
  { split.
    - intros H. apply mapR_Throw_inv in H as (order & Hin & Hrow).
      apply row_of_Throw in Hrow as (fld & Hfld & Hnull). eauto.
    - intros (order & fld & Hin & Hfld & Hnull).
      eapply mapR_Throw; [exact Hin|]. eapply row_of_nullish; eassumption. }
  split; [exact Hthrow|]. split.
  - intros [rows Hrows] order fld Hin Hfld.
    destruct (nullish (prop order fld)) eqn:Hnull; [|reflexivity].
    assert (Hno : mapR row_of orders = Throw TypeError) by (apply Hthrow; eauto).
    rewrite Hrows in Hno. discriminate.
  - intros Hall. destruct (mapR row_of orders) as [rows|e]; [eauto|].
    destruct (proj1 Hthrow (Throw_TypeError e)) as (order & fld & Hin & Hfld & Hnull).
    rewrite (Hall order fld Hin Hfld) in Hnull. discriminate.
Qed.

Lemma rows_throw_iff_text_field_nullish_witness :
  reachable COLUMNS /\
  buildRowsForOrders [order1; <["customerName" := PNull]> order1] COLUMNS = Throw TypeError.
Proof.
  split; [apply reachable_init|].
  apply (proj1 (rows_throw_iff_text_field_nullish
                  [order1; <["customerName" := PNull]> order1] COLUMNS reachable_init)).
  exists (<["customerName" := PNull]> order1), "customerName".
  split; [right; left|]. split; [right; left | reflexivity].
Defined.

(** X8: the row builder reads six properties of an order and no other:
    orders that agree on id, customerName, productCode, unitsOrdered,
    unitPrice and status get the same rows, and fail alike. *)
Theorem rows_depend_on_six_fields (orders orders' : list Order) columns :
  reachable columns ->
  Forall2 (fun order order' : Order =>
             forall fld, fld ∈ order_fields -> prop order fld = prop order' fld)
          orders orders' ->
  buildRowsForOrders orders columns = buildRowsForOrders orders' columns.
Proof.
  intros Hc Hagree. rewrite !(buildRowsForOrders_reachable _ _ Hc).
  induction Hagree as [|order order' orders orders' Hsame _ IH]; [reflexivity|].
  cbn [mapR]. rewrite IH. f_equal. unfold row_of.
  rewrite (Hsame "id"), (Hsame "customerName"), (Hsame "productCode"),
    (Hsame "unitsOrdered"), (Hsame "unitPrice"), (Hsame "status");
    [reflexivity|unfold order_fields; set_solver..].
Qed.

Lemma rows_depend_on_six_fields_witness :
  reachable COLUMNS /\
  buildRowsForOrders [<["createdAt" := PStr "2016-11-02"]> order1] COLUMNS =
    buildRowsForOrders [order1] COLUMNS.
Proof.
  split; [apply reachable_init|].
  apply (rows_depend_on_six_fields _ _ COLUMNS reachable_init).
  constructor; [|constructor].
  intros fld Hfld. unfold order_fields in Hfld.
  repeat (apply elem_of_cons in Hfld as [->|Hfld]); try reflexivity.
  inversion Hfld.
Defined.

(** ** Runs of the two operations *)

(** A run only looks at a tree through [observe]. *)
Lemma run_observe {R} replies (t t' : itree sheetsE R) :
  observe t = observe t' -> run replies t = run replies t'.
Proof.
  intros H. destruct replies as [|reply replies]; cbn [run];
    unfold first_step, resume; rewrite H; reflexivity.
Qed.

Lemma run_Ret {R} replies (r : R) : run replies (Ret r : itree sheetsE R) = ([], Some r).
Proof. destruct replies; reflexivity. Qed.

Lemma run_create {R} request (k : JsVal * JsVal -> itree sheetsE R) reply replies :
  run (reply :: replies) (ITree.bind (ITree.trigger (spreadsheets_create request)) k) =
  let '(calls, r) := run replies (k reply) in
  (("spreadsheets.create", request) :: calls, r).
Proof.
  cbn [run]. change (first_step _) with (@Calls R "spreadsheets.create" request).
  cbn -[run]. rewrite (run_observe replies _ (k reply)) by reflexivity. reflexivity.
Qed.

Lemma run_batchUpdate {R} request (k : JsVal * JsVal -> itree sheetsE R) reply replies :
  run (reply :: replies) (ITree.bind (ITree.trigger (spreadsheets_batchUpdate request)) k) =
  let '(calls, r) := run replies (k reply) in
  (("spreadsheets.batchUpdate", request) :: calls, r).
Proof.
  cbn [run]. change (first_step _) with (@Calls R "spreadsheets.batchUpdate" request).
  cbn -[run]. rewrite (run_observe replies _ (k reply)) by reflexivity. reflexivity.
Qed.

Lemma run_no_reply {R} (e : sheetsE (JsVal * JsVal)) (k : JsVal * JsVal -> itree sheetsE R) :
  run [] (ITree.bind (ITree.trigger e) k) = ([method_of e], None).
Proof. destruct e; reflexivity. Qed.

(** X9: when the rows can be built, [sync] makes one call of the service,
    [spreadsheets.batchUpdate], and then calls back with the error the
    service gave, or with no argument when it gave none.  When the row
    builder throws, [sync] makes no call and the exception escapes. *)
Theorem sync_calls_once_then_reports spreadsheetId sheetId orders columns :
  (forall rows err response replies,
     buildRowsForOrders orders columns = Ok rows ->
     exists request,
       sync_request spreadsheetId sheetId orders columns = Ok request /\
       run ((err, response) :: replies) (sync spreadsheetId sheetId orders columns) =
         ([("spreadsheets.batchUpdate", request)],
          Some (Callback (if truthy err then [err] else [])))) /\
  (forall e replies,
     buildRowsForOrders orders columns = Throw e ->
     run replies (sync spreadsheetId sheetId orders columns) = ([], Some (Thrown e))).
Proof.
  split.
  - intros rows err response replies Hrows. unfold sync, sync_request.
    rewrite Hrows. cbn [bindR app]. eexists. split; [reflexivity|].
    rewrite run_batchUpdate. destruct (truthy err); rewrite run_Ret; reflexivity.
  - intros e replies Hrows. unfold sync, sync_request.
    rewrite Hrows. cbn [bindR]. apply run_Ret.
Qed.

Lemma sync_calls_once_then_reports_witness :
  exists request,
    run [(str "quota", undefined)] (sync (str "s1") (int 0) [order1] COLUMNS) =
      ([("spreadsheets.batchUpdate", request)], Some (Callback [str "quota"])).
Proof.
  destruct (proj1 (sync_calls_once_then_reports (str "s1") (int 0) [order1] COLUMNS)
              _ (str "quota") undefined [] eq_refl) as (request & _ & Hrun).
  exists request. exact Hrun.
Defined.

Lemma get_not_nullish v key x key' : get v key = Ok x -> exists y, get v key' = Ok y.
Proof.
  destruct v as [[| | | |]| |]; cbn; intros H; try discriminate; eexists; reflexivity.
Qed.

(** The callback of [spreadsheets.create], in terms of the three reads. *)
Lemma create_followup_reads response columns :
  create_followup response columns =
  do '(spreadsheet, dataSheetId, pivotSheetId) <- reply_sheet_ids response;
  do '(pivot, columns') <- buildPivotTableRequest dataSheetId pivotSheetId columns;
  do spreadsheetId <- get spreadsheet "spreadsheetId";
  Ok (JsObj [
        ("spreadsheetId", spreadsheetId);
        ("resource", JsObj [
          ("requests", JsArr [
            buildHeaderRowRequest dataSheetId columns;
            pivot;
            buildFormatPivotTableRequest pivotSheetId;
            buildAddChartRequest pivotSheetId
          ])
        ])
      ], spreadsheet, columns').
Proof.
  unfold create_followup, reply_sheet_ids, sheet_id.
  destruct (get response "data") as [spreadsheet|]; cbn [bindR]; [|reflexivity].
  destruct (get spreadsheet "sheets") as [sheets|]; cbn [bindR]; [|reflexivity].
  destruct (get_index sheets 0) as [sheet0|]; cbn [bindR]; [|reflexivity].
  destruct (get sheet0 "properties") as [properties0|]; cbn [bindR]; [|reflexivity].
  destruct (get properties0 "sheetId") as [dataSheetId|]; cbn [bindR]; [|reflexivity].
  destruct (get_index sheets 1) as [sheet1|]; cbn [bindR]; [|reflexivity].
  destruct (get sheet1 "properties") as [properties1|]; cbn [bindR]; [|reflexivity].
  destruct (get properties1 "sheetId") as [pivotSheetId|]; cbn [bindR]; [|reflexivity].
  destruct (buildPivotTableRequest dataSheetId pivotSheetId columns) as [[pivot columns']|];
    cbn [bindR]; reflexivity.
Qed.

Lemma reply_sheet_ids_spreadsheet response spreadsheet dataSheetId pivotSheetId :
  reply_sheet_ids response = Ok (spreadsheet, dataSheetId, pivotSheetId) ->
  get response "data" = Ok spreadsheet /\
  sheet_id spreadsheet 0 = Ok dataSheetId /\
  sheet_id spreadsheet 1 = Ok pivotSheetId /\
  exists spreadsheetId, get spreadsheet "spreadsheetId" = Ok spreadsheetId.
Proof.
  unfold reply_sheet_ids.
  destruct (get response "data") as [s|]; cbn [bindR]; [|discriminate].
  destruct (sheet_id s 0) as [d|] eqn:Hd; cbn [bindR]; [|discriminate].
  destruct (sheet_id s 1) as [p|] eqn:Hp; cbn [bindR]; [|discriminate].
  intros [= <- <- <-]. split; [reflexivity|]. split; [exact Hd|]. split; [exact Hp|].
  unfold sheet_id in Hd.
  destruct (get s "sheets") eqn:Hsheets; [|discriminate].
  exact (get_not_nullish _ _ _ _ Hsheets).
Qed.

Lemma create_followup_reachable response columns request spreadsheet columns' :
  reachable columns ->
  create_followup response columns = Ok (request, spreadsheet, columns') ->
  reachable columns'.
Proof.
  intros Hc. rewrite create_followup_reads.
  destruct (reply_sheet_ids response) as [[[s d] p]|]; cbn [bindR]; [|discriminate].
  destruct (buildPivotTableRequest d p columns) as [[pivot columns'']|] eqn:Hpivot;
    cbn [bindR]; [|discriminate].
  destruct (get s "spreadsheetId"); cbn [bindR]; [|discriminate].
  intros [= _ _ <-]. exact (buildPivotTableRequest_reachable _ _ _ _ _ Hc Hpivot).
Qed.

(** X10: when [spreadsheets.create] answers without an error and its
    reply holds a spreadsheet with two sheets, [createSpreadsheet] makes a
    second call, [spreadsheets.batchUpdate] on that spreadsheet, with four
    requests in this order: the header row on the first sheet, the pivot
    table on the second sheet over the first, the format and the chart on
    the second sheet.  It then calls back with the error of that second
    call, or with [null] and the spreadsheet. *)
Theorem createSpreadsheet_fills_both_sheets title columns err response
    spreadsheet dataSheetId pivotSheetId :
  reachable columns ->
  truthy err = false ->
  reply_sheet_ids response = Ok (spreadsheet, dataSheetId, pivotSheetId) ->
  exists spreadsheetId pivot columns',
    get spreadsheet "spreadsheetId" = Ok spreadsheetId /\
    buildPivotTableRequest dataSheetId pivotSheetId columns = Ok (pivot, columns') /\
    forall err' response' replies,
      run ((err, response) :: (err', response') :: replies)
          (createSpreadsheet title columns) =
        ([("spreadsheets.create", create_request title);
          ("spreadsheets.batchUpdate", JsObj [
             ("spreadsheetId", spreadsheetId);
             ("resource", JsObj [
               ("requests", JsArr [
                 buildHeaderRowRequest dataSheetId columns;
                 pivot;
                 buildFormatPivotTableRequest pivotSheetId;
                 buildAddChartRequest pivotSheetId
               ])
             ])
           ])],
         Some (Callback (if truthy err' then [err'] else [null; spreadsheet]), columns')).
Proof.
  intros Hc Herr Hreply.
  destruct (reply_sheet_ids_spreadsheet _ _ _ _ Hreply) as (_ & _ & _ & spreadsheetId & Hid).
  destruct (buildPivotTableRequest_total dataSheetId pivotSheetId columns Hc)
    as (pivot & columns' & Hpivot).
  exists spreadsheetId, pivot, columns'. split; [exact Hid|]. split; [exact Hpivot|].
  intros err' response' replies.
  unfold createSpreadsheet. rewrite run_create. cbv beta iota.
  rewrite Herr, create_followup_reads, Hreply. cbn [bindR]. cbv beta iota.
  rewrite Hpivot. cbn [bindR]. cbv beta iota. rewrite Hid. cbn [bindR].
  rewrite run_batchUpdate. cbv beta iota.
  destruct (truthy err'); rewrite run_Ret; reflexivity.
Qed.

Lemma createSpreadsheet_fills_both_sheets_witness :
  reachable COLUMNS /\
  truthy null = false /\
  reply_sheet_ids created_response = Ok (created_spreadsheet, int 0, int 42) /\
  exists calls columns',
    run [(null, created_response); (null, undefined)]
        (createSpreadsheet (str "Orders") COLUMNS) =
      (calls, Some (Callback [null; created_spreadsheet], columns')).
Proof.
  split; [apply reachable_init|]. split; [reflexivity|]. split; [reflexivity|].
  destruct (createSpreadsheet_fills_both_sheets (str "Orders") COLUMNS null created_response
              created_spreadsheet (int 0) (int 42) reachable_init eq_refl eq_refl)
    as (spreadsheetId & pivot & columns' & _ & _ & Hrun).
  eexists _, columns'. exact (Hrun null undefined []).
Defined.

(** X11: when the reply of [spreadsheets.create] carries no error but
    lacks the spreadsheet, or one of its first two sheets, or their
    properties, the callback throws a [TypeError]: no second call is made,
    [callback] is never called, and the column table is as it was. *)
Theorem createSpreadsheet_throws_on_short_reply title columns err response e replies :
  truthy err = false ->
  reply_sheet_ids response = Throw e ->
  run ((err, response) :: replies) (createSpreadsheet title columns) =
    ([("spreadsheets.create", create_request title)], Some (Thrown TypeError, columns)).
Proof.
  intros Herr Hreply.
  unfold createSpreadsheet. rewrite run_create. cbv beta iota.
  rewrite Herr, create_followup_reads, Hreply. cbn [bindR].
  rewrite run_Ret. destruct e. reflexivity.
Qed.

Lemma createSpreadsheet_throws_on_short_reply_witness :
  truthy null = false /\
  reply_sheet_ids
    (JsObj [("data", JsObj [
       ("spreadsheetId", str "s1");
       ("sheets", JsArr [JsObj [("properties", JsObj [("sheetId", int 0)])]])])]) =
    Throw TypeError /\
  run [(null, JsObj [("data", JsObj [
         ("spreadsheetId", str "s1");
         ("sheets", JsArr [JsObj [("properties", JsObj [("sheetId", int 0)])]])])])]
      (createSpreadsheet (str "Orders") COLUMNS) =
    ([("spreadsheets.create", create_request (str "Orders"))],
     Some (Thrown TypeError, COLUMNS)).
Proof.
  split; [reflexivity|]. split; [reflexivity|].
  apply (createSpreadsheet_throws_on_short_reply (str "Orders") COLUMNS null _ TypeError []);
    reflexivity.
Defined.

(** X12: in every run of [createSpreadsheet], whatever the service
    answers, the first call is [spreadsheets.create] with the request of the
    title, at most one call follows and it is [spreadsheets.batchUpdate],
    the column table ends in a state that lookups alone can produce, and an
    error answered to the first call is handed to the callback with nothing
    else done. *)
Theorem createSpreadsheet_calls_in_order title columns replies calls outcome :
  reachable columns ->
  run replies (createSpreadsheet title columns) = (calls, outcome) ->
  (exists rest,
     calls = ("spreadsheets.create", create_request title) :: rest /\
     (rest = [] \/ exists request, rest = [("spreadsheets.batchUpdate", request)])) /\
  (forall result columns', outcome = Some (result, columns') -> reachable columns') /\
  (forall err response replies',
     replies = (err, response) :: replies' -> truthy err = true ->
     calls = [("spreadsheets.create", create_request title)] /\
     outcome = Some (Callback [err], columns)).
Proof.
  intros Hc. unfold createSpreadsheet.
  destruct replies as [|[err response] replies].
  { rewrite run_no_reply. intros [= <- <-].
    split; [eexists; split; [reflexivity | left; reflexivity]|].
    split; [discriminate | discriminate]. }
  rewrite run_create. cbv beta iota.
  destruct (truthy err) eqn:Herr.
  { rewrite run_Ret. intros [= <- <-].
    split; [eexists; split; [reflexivity | left; reflexivity]|].
    split; [intros ? ? [= _ <-]; exact Hc|].
    intros ? ? ? [= <- _ _] _. split; reflexivity. }
  destruct (create_followup response columns) as [[[request spreadsheet] columns']|e]
    eqn:Hfollow.
  2: { rewrite run_Ret. intros [= <- <-].
       split; [eexists; split; [reflexivity | left; reflexivity]|].
       split; [intros ? ? [= _ <-]; exact Hc|].
       intros ? ? ? [= <- _ _] Htrue. congruence. }
  pose proof (create_followup_reachable _ _ _ _ _ Hc Hfollow) as Hc'.
  destruct replies as [|[err' response'] replies].
  { rewrite run_no_reply. intros [= <- <-].
    split; [eexists; split; [reflexivity | right; eexists; reflexivity]|].
    split; [discriminate|].
    intros ? ? ? [= <- _ _] Htrue. congruence. }
  rewrite run_batchUpdate. cbv beta iota.
  destruct (truthy err'); rewrite run_Ret; intros [= <- <-];
    (split; [eexists; split; [reflexivity | right; eexists; reflexivity]|]);
    (split; [intros ? ? [= _ <-]; exact Hc'|]);
    intros ? ? ? [= <- _ _] Htrue; congruence.
Qed.

Lemma createSpreadsheet_calls_in_order_witness :
  reachable COLUMNS /\
  exists calls outcome,
    run [(str "denied", undefined)] (createSpreadsheet (str "Orders") COLUMNS) =
      (calls, outcome) /\
    calls = [("spreadsheets.create", create_request (str "Orders"))] /\
    outcome = Some (Callback [str "denied"], COLUMNS).
Proof.
  split; [apply reachable_init|].
  eexists _, _. split; [reflexivity|].
  apply (proj2 (proj2 (createSpreadsheet_calls_in_order (str "Orders") COLUMNS
                         [(str "denied", undefined)] _ _ reachable_init eq_refl))
           (str "denied") undefined []); reflexivity.
Defined.

(** ** Earlier steps of the helper *)

(** X13: the two versions of step 7 differ only in where they find the
    spreadsheet: the older one, given a reply [r], makes the calls and ends
    as the newer one does given the reply [{data: r}]. *)
Theorem createSpreadsheet_header_versions_agree title columns err r replies :
  run ((err, r) :: replies) (createSpreadsheet_header title columns) =
  run ((err, JsObj [("data", r)]) :: replies) (createSpreadsheet_header_data title columns).
Proof.
  unfold createSpreadsheet_header, createSpreadsheet_header_data.
  rewrite !run_create. cbv beta iota.
  destruct (truthy err); [reflexivity|].
  change (get (JsObj [("data", r)]) "data") with (Ok r). cbn [bindR].
  destruct (header_followup r columns) as [request|e]; cbn [bindR]; reflexivity.
Qed.

(** X14: the final [createSpreadsheet] extends step 7.  On a reply with
    two sheets both make two calls and end alike; the final creation request
    lists the Pivot sheet after the Data sheet of step 7, and the final
    batch is the header request of step 7 followed by three more
    requests, for the same spreadsheet. *)
Theorem createSpreadsheet_extends_step7 title columns err response
    spreadsheet dataSheetId pivotSheetId err' response' replies :
  reachable columns ->
  truthy err = false ->
  reply_sheet_ids response = Ok (spreadsheet, dataSheetId, pivotSheetId) ->
  exists create7 batch7 create batch result columns' data_sheet pivot_sheet header more,
    run ((err, response) :: (err', response') :: replies)
        (createSpreadsheet_header_data title columns) =
      ([("spreadsheets.create", create7); ("spreadsheets.batchUpdate", batch7)],
       Some result) /\
    run ((err, response) :: (err', response') :: replies)
        (createSpreadsheet title columns) =
      ([("spreadsheets.create", create); ("spreadsheets.batchUpdate", batch)],
       Some (result, columns')) /\
    at_path create7 [K "resource"; K "sheets"] = Some (JsArr [data_sheet]) /\
    at_path create [K "resource"; K "sheets"] = Some (JsArr [data_sheet; pivot_sheet]) /\
    at_path create7 [K "resource"; K "properties"] =
      at_path create [K "resource"; K "properties"] /\
    at_path batch7 [K "resource"; K "requests"] = Some (JsArr [header]) /\
    at_path batch [K "resource"; K "requests"] = Some (JsArr (header :: more)) /\
    length more = 3%nat /\
    at_path batch7 [K "spreadsheetId"] = at_path batch [K "spreadsheetId"].
Proof.
  intros Hc Herr Hreply.
  destruct (reply_sheet_ids_spreadsheet _ _ _ _ Hreply)
    as (Hdata & Hd & _ & spreadsheetId & Hid).
  destruct (buildPivotTableRequest_total dataSheetId pivotSheetId columns Hc)
    as (pivot & columns' & Hpivot).
  do 10 eexists.
  split.
  { unfold createSpreadsheet_header_data. rewrite run_create. cbv beta iota.
    rewrite Herr, Hdata. cbn [bindR]. unfold header_followup.
    unfold sheet_id in Hd.
    destruct (get spreadsheet "sheets") as [sheets|]; cbn [bindR] in *; [|discriminate].
    destruct (get_index sheets 0) as [sheet|]; cbn [bindR] in *; [|discriminate].
    destruct (get sheet "properties") as [properties|]; cbn [bindR] in *; [|discriminate].
    rewrite Hd, Hid. cbn [bindR].
    rewrite run_batchUpdate. cbv beta iota.
    instantiate (1 := Callback (if truthy err' then [err'] else [null; spreadsheet])).
    destruct (truthy err'); rewrite run_Ret; reflexivity. }
  split.
  { unfold createSpreadsheet. rewrite run_create. cbv beta iota.
    rewrite Herr, create_followup_reads, Hreply. cbn [bindR]. cbv beta iota.
    rewrite Hpivot. cbn [bindR]. cbv beta iota. rewrite Hid. cbn [bindR].
    rewrite run_batchUpdate. cbv beta iota.
    destruct (truthy err'); rewrite run_Ret; reflexivity. }
  repeat split.
Qed.

Lemma createSpreadsheet_extends_step7_witness :
  reachable COLUMNS /\
  truthy null = false /\
  reply_sheet_ids created_response = Ok (created_spreadsheet, int 0, int 42) /\
  exists calls7 calls result columns',
    run [(null, created_response); (null, undefined)]
        (createSpreadsheet_header_data (str "Orders") COLUMNS) = (calls7, Some result) /\
    run [(null, created_response); (null, undefined)]
        (createSpreadsheet (str "Orders") COLUMNS) = (calls, Some (result, columns')).
Proof.
  split; [apply reachable_init|]. split; [reflexivity|]. split; [reflexivity|].
  destruct (createSpreadsheet_extends_step7 (str "Orders") COLUMNS null created_response
              created_spreadsheet (int 0) (int 42) null undefined []
              reachable_init eq_refl eq_refl)
    as (create7 & batch7 & create & batch & result & columns' & _ & _ & _ & _ & H7 & H & _).
  eexists _, _, result, columns'. split; [exact H7 | exact H].
Defined.

(** * Properties of the routes *)

(** ** Runs against a script *)

Section ExecFacts.
Context {E : Type -> Type} {P : Type} (answer : forall T, E T -> P -> option T).

Lemma exec_observe {R} replies (t t' : itree E R) :
  observe t = observe t' -> exec answer replies t = exec answer replies t'.
Proof.
  intros H. destruct replies as [|reply replies]; cbn [exec]; rewrite H; reflexivity.
Qed.

Lemma exec_Ret {R} replies (r : R) : exec answer replies (Ret r) = ([], Some r).
Proof. destruct replies; reflexivity. Qed.

Lemma exec_call {T R} (e : E T) (k : T -> itree E R) reply replies :
  exec answer (reply :: replies) (ITree.bind (ITree.trigger e) k) =
  match answer T e reply with
  | Some x => let '(calls, r) := exec answer replies (k x) in (existT T e :: calls, r)
  | None => ([existT T e], None)
  end.
Proof.
  cbn [exec]. cbn -[exec]. destruct (answer T e reply) as [x|]; [|reflexivity].
  rewrite (exec_observe replies _ (k x)) by reflexivity. reflexivity.
Qed.

Lemma exec_unanswered {T R} (e : E T) (k : T -> itree E R) :
  exec answer [] (ITree.bind (ITree.trigger e) k) = ([existT T e], None).
Proof. reflexivity. Qed.
End ExecFacts.

(** The helper inside a route: its calls go out under the route's token. *)
Lemma exec_helper_Ret {A R} accessToken (a : A) (k : A -> itree routeE R) replies :
  exec route_answer replies (ITree.bind (translate (with_token accessToken) (Ret a)) k) =
  exec route_answer replies (k a).
Proof. apply exec_observe. reflexivity. Qed.

Lemma exec_helper_create {A R} accessToken request
    (k1 : JsVal * JsVal -> itree sheetsE A) (k : A -> itree routeE R) reply replies :
  exec route_answer (reply :: replies)
    (ITree.bind
       (translate (with_token accessToken)
          (ITree.bind (ITree.trigger (spreadsheets_create request)) k1)) k) =
  match reply with
  | service_answers err response =>
      let '(calls, r) :=
        exec route_answer replies
          (ITree.bind (translate (with_token accessToken) (k1 (err, response))) k) in
      (called (sheets_service accessToken (spreadsheets_create request)) :: calls, r)
  | _ => ([called (sheets_service accessToken (spreadsheets_create request))], None)
  end.
Proof.
  cbn [exec]. cbn -[exec]. destruct reply; try reflexivity.
  cbn -[exec]. erewrite exec_observe; reflexivity.
Qed.

Lemma exec_helper_batchUpdate {A R} accessToken request
    (k1 : JsVal * JsVal -> itree sheetsE A) (k : A -> itree routeE R) reply replies :
  exec route_answer (reply :: replies)
    (ITree.bind
       (translate (with_token accessToken)
          (ITree.bind (ITree.trigger (spreadsheets_batchUpdate request)) k1)) k) =
  match reply with
  | service_answers err response =>
      let '(calls, r) :=
        exec route_answer replies
          (ITree.bind (translate (with_token accessToken) (k1 (err, response))) k) in
      (called (sheets_service accessToken (spreadsheets_batchUpdate request)) :: calls, r)
  | _ => ([called (sheets_service accessToken (spreadsheets_batchUpdate request))], None)
  end.
Proof.
  cbn [exec]. cbn -[exec]. destruct reply; try reflexivity.
  cbn -[exec]. erewrite exec_observe; reflexivity.
Qed.

Lemma exec_helper_unanswered {A R} accessToken (call : sheetsE (JsVal * JsVal))
    (k1 : JsVal * JsVal -> itree sheetsE A) (k : A -> itree routeE R) :
  exec route_answer []
    (ITree.bind (translate (with_token accessToken) (ITree.bind (ITree.trigger call) k1)) k) =
  ([called (sheets_service accessToken call)], None).
Proof. reflexivity. Qed.

(** ** The Authorization header *)

Lemma split_no_sep sep s :
  Forall (fun c => c <> sep) (list_ascii_of_string s) -> string_split sep s = [s].
Proof.
  induction s as [|c s IH]; cbn -[Ascii.eqb]; [reflexivity|].
  intros H. apply Forall_cons in H as [Hc Hs].
  destruct (Ascii.eqb_spec c sep) as [->|_]; [congruence|].
  rewrite (IH Hs). reflexivity.
Qed.

Lemma split_Bearer rest : string_split " " (bearer rest) = "Bearer" :: string_split " " rest.
Proof.
  unfold bearer. cbn. reflexivity.
Qed.

(** X15: the token the page puts in the header is the token the routes
    take out of it, as long as it holds no space; a token with a space is
    cut at the space, and a header without any space gives [undefined]. *)
Theorem bearer_token_round_trip :
  (forall token, no_space token -> access_token_of (bearer token) = str token) /\
  (forall token tail,
     no_space token ->
     access_token_of (bearer (token +:+ " " +:+ tail)) = str token) /\
  (forall auth, no_space auth -> access_token_of auth = undefined).
Proof.
  unfold access_token_of. split; [|split].
  - intros token H. rewrite split_Bearer, (split_no_sep _ _ H). reflexivity.
  - intros token tail H. rewrite split_Bearer.
    change (" " +:+ tail) with (String " " tail).
    assert (Hcut : exists pieces, string_split " " (token +:+ String " " tail) = token :: pieces).
    { clear -H. induction token as [|c token IH].
      - cbn. eexists; reflexivity.
      - apply Forall_cons in H as [Hc Hs].
        change (String c token +:+ String " " tail)
          with (String c (token +:+ String " " tail)).
        cbn -[Ascii.eqb].
        destruct (Ascii.eqb_spec c " ") as [->|_]; [congruence|].
        destruct (IH Hs) as [pieces ->]. eexists; reflexivity. }
    destruct Hcut as [pieces ->]. reflexivity.
  - intros auth H. rewrite (split_no_sep _ _ H). reflexivity.
Qed.

Lemma bearer_token_round_trip_witness :
  no_space "ya29.token" /\ access_token_of (bearer "ya29.token") = str "ya29.token".
Proof.
  assert (H : no_space "ya29.token") by (repeat constructor; discriminate).
  split; [exact H|]. apply (proj1 bearer_token_round_trip). exact H.
Defined.

(** ** Creating a spreadsheet from the page *)

Lemma spreadsheet_model_sheetId spreadsheet dataSheetId model :
  sheet_id spreadsheet 0 = Ok dataSheetId ->
  spreadsheet_model spreadsheet = Ok model ->
  exists id name,
    get spreadsheet "spreadsheetId" = Ok id /\
    model = JsObj [("id", id); ("sheetId", dataSheetId); ("name", name)].
Proof.
  intros Hd. unfold spreadsheet_model. rewrite Hd.
  destruct (get spreadsheet "spreadsheetId") as [id|]; cbn [bindR]; [|discriminate].
  destruct (get spreadsheet "properties") as [properties|]; cbn [bindR]; [|discriminate].
  destruct (get properties "title") as [name|]; cbn [bindR]; [|discriminate].
  intros [= <-]. eauto.
Qed.

(** X16: with an Authorization header, when the service accepts both calls
    of the helper and the record is stored, the route reads the clock,
    creates the spreadsheet titled [Orders (<time>)] and fills it, both under
    the token of the header, then stores the record [{id, sheetId, name}] of
    the spreadsheet ([sheetId] being the id of the sheet the header row went
    to) and answers with that same record.  When the spreadsheet that comes
    back has no [properties], the route throws after the two calls: nothing
    is stored and nothing is answered. *)
Theorem post_spreadsheets_stores_then_answers auth time columns err response
    spreadsheet dataSheetId pivotSheetId err' response' :
  no_header (Some auth) = false ->
  reachable columns ->
  truthy err = false ->
  reply_sheet_ids response = Ok (spreadsheet, dataSheetId, pivotSheetId) ->
  truthy err' = false ->
  exists batch columns',
    let accessToken := access_token_of auth in
    let title := str ("Orders (" +:+ time +:+ ")") in
    let helper_calls := [
      called Date_toLocaleTimeString;
      called (sheets_service accessToken (spreadsheets_create (create_request title)));
      called (sheets_service accessToken (spreadsheets_batchUpdate batch))
    ] in
    (forall model,
       spreadsheet_model spreadsheet = Ok model ->
       (exists id name,
          model = JsObj [("id", id); ("sheetId", dataSheetId); ("name", name)]) /\
       exec route_answer
         [time_is time; service_answers err response; service_answers err' response';
          resolves]
         (post_spreadsheets (Some auth) columns) =
         ((helper_calls ++ [called (Spreadsheet_create model)])%list,
          Some (res_json model, columns'))) /\
    (forall e replies,
       spreadsheet_model spreadsheet = Throw e ->
       exec route_answer
         (time_is time :: service_answers err response :: service_answers err' response'
            :: replies)
         (post_spreadsheets (Some auth) columns) =
         (helper_calls, Some (no_response, columns'))).
Proof.
  intros Hauth Hc Herr Hreply Herr'.
  destruct (reply_sheet_ids_spreadsheet _ _ _ _ Hreply) as (_ & Hd & _ & spreadsheetId & Hid).
  destruct (buildPivotTableRequest_total dataSheetId pivotSheetId columns Hc)
    as (pivot & columns' & Hpivot).
  exists (JsObj [
            ("spreadsheetId", spreadsheetId);
            ("resource", JsObj [
              ("requests", JsArr [
                buildHeaderRowRequest dataSheetId columns;
                pivot;
                buildFormatPivotTableRequest pivotSheetId;
                buildAddChartRequest pivotSheetId
              ])
            ])
          ]), columns'.
  cbv zeta.
  assert (Hmodel_sheet : forall model, spreadsheet_model spreadsheet = Ok model ->
            exists id name,
              model = JsObj [("id", id); ("sheetId", dataSheetId); ("name", name)]).
  { intros model Hmodel.
    destruct (spreadsheet_model_sheetId _ _ _ Hd Hmodel) as (? & ? & _ & ->). eauto. }
  split; [intros model Hmodel; split; [exact (Hmodel_sheet model Hmodel)|]
         |intros e replies Hmodel];
    unfold post_spreadsheets; rewrite Hauth;
    rewrite exec_call; cbn [route_answer]; cbv beta iota;
    unfold createSpreadsheet; rewrite exec_helper_create; cbv beta iota;
    rewrite Herr, create_followup_reads, Hreply; cbn [bindR]; cbv beta iota;
    rewrite Hpivot; cbn [bindR]; cbv beta iota; rewrite Hid; cbn [bindR];
    rewrite exec_helper_batchUpdate; cbv beta iota; rewrite Herr';
    rewrite exec_helper_Ret; cbv beta iota;
    cbn [arg lookup list_lookup default from_option truthy null id];
    rewrite Hmodel.
  - rewrite exec_call. cbn [route_answer settle fmap option_fmap option_map].
    rewrite exec_Ret. reflexivity.
  - rewrite exec_Ret. reflexivity.
Qed.

Lemma post_spreadsheets_stores_then_answers_witness :
  no_header (Some "Bearer t0k") = false /\
  reachable COLUMNS /\
  truthy null = false /\
  reply_sheet_ids created_response = Ok (created_spreadsheet, int 0, int 42) /\
  exists calls columns',
    exec route_answer
      [time_is "10:00:00"; service_answers null created_response;
       service_answers null undefined; resolves]
      (post_spreadsheets (Some "Bearer t0k") COLUMNS) =
      (calls,
       Some (res_json (JsObj [("id", str "s1"); ("sheetId", int 0);
                              ("name", str EmptyString)]), columns')).
Proof.
  split; [reflexivity|]. split; [apply reachable_init|]. split; [reflexivity|].
  split; [reflexivity|].
  destruct (post_spreadsheets_stores_then_answers "Bearer t0k" "10:00:00" COLUMNS
              null created_response created_spreadsheet (int 0) (int 42) null undefined
              eq_refl reachable_init eq_refl eq_refl eq_refl)
    as (batch & columns' & Hstored & _).
  destruct (Hstored _ eq_refl) as [_ Hrun].
  eexists _, columns'. exact Hrun.
Defined.

Ltac end_of_run :=
  rewrite ?exec_Ret, ?exec_unanswered, ?exec_helper_unanswered; cbv beta iota;
  first [intros [= <- <- <-] | intros [= <- <-] | discriminate].





(** ** Synchronising from the page *)

(** X18: with an Authorization header, a spreadsheet record found for the
    id and orders whose rows can be built, the sync route looks the record
    up, reads all orders, makes one call of the service under the token of
    the header, the request of [sync] for the [id] and [sheetId] of the
    record, and then answers with the number of orders, or passes the error
    of the service to [next]. *)
Theorem post_sync_answers_order_count auth id columns row orders
    spreadsheetId sheetId rows err response replies :
  no_header (Some auth) = false ->
  get row "id" = Ok spreadsheetId ->
  get row "sheetId" = Ok sheetId ->
  buildRowsForOrders orders columns = Ok rows ->
  exists request,
    sync_request spreadsheetId sheetId orders columns = Ok request /\
    exec route_answer
      (resolves_spreadsheet row :: resolves_orders orders :: service_answers err response
         :: replies)
      (post_spreadsheets_sync (Some auth) id columns) =
      ([called (Spreadsheet_findByPk (str id));
        called Order_findAll;
        called (sheets_service (access_token_of auth) (spreadsheets_batchUpdate request))],
       Some (if truthy err then next err
             else res_json (int (Z.of_nat (length orders))))).
Proof.
  intros Hauth Hid Hsheet Hrows.
  eexists. split.
  { unfold sync_request. rewrite Hrows. cbn [bindR app]. reflexivity. }
  unfold post_spreadsheets_sync. rewrite Hauth.
  rewrite exec_call. cbn [route_answer settle fmap option_fmap option_map].
  cbv beta iota. rewrite exec_call.
  cbn [route_answer settle fmap option_fmap option_map]. cbv beta iota.
  rewrite Hid, Hsheet. cbn [bindR].
  unfold sync, sync_request. rewrite Hrows. cbn [bindR app].
  rewrite exec_helper_batchUpdate. cbv beta iota.
  destruct (truthy err) eqn:Herr; rewrite exec_helper_Ret;
    cbn [arg lookup list_lookup default from_option Datatypes.id truthy undefined];
    rewrite ?Herr; rewrite exec_Ret; reflexivity.
Qed.

Lemma post_sync_answers_order_count_witness :
  no_header (Some "Bearer t0k") = false /\
  exists request,
    exec route_answer
      [resolves_spreadsheet (JsObj [("id", str "s1"); ("sheetId", int 0)]);
       resolves_orders [order1; order1]; service_answers null undefined]
      (post_spreadsheets_sync (Some "Bearer t0k") "s1" COLUMNS) =
      ([called (Spreadsheet_findByPk (str "s1"));
        called Order_findAll;
        called (sheets_service (str "t0k") (spreadsheets_batchUpdate request))],
       Some (res_json (int 2))).
Proof.
  split; [reflexivity|].
  destruct (post_sync_answers_order_count "Bearer t0k" "s1" COLUMNS
              (JsObj [("id", str "s1"); ("sheetId", int 0)]) [order1; order1]
              (str "s1") (int 0) _ null undefined []
              eq_refl eq_refl eq_refl eq_refl) as (request & _ & Hrun).
  exists request. exact Hrun.
Defined.

(** X19: the sync route answers nothing, and never reaches the Sheets
    service, when the spreadsheet record is not found ([null]), when some
    order lacks an id, a customerName or a productCode, or when one of its
    two queries is rejected. *)
Theorem post_sync_unanswered auth id columns (orders : list Order) :
  no_header (Some auth) = false ->
  reachable columns ->
  let queries := [called (Spreadsheet_findByPk (str id)); called Order_findAll] in
  (forall replies,
     exec route_answer (resolves_spreadsheet null :: resolves_orders orders :: replies)
       (post_spreadsheets_sync (Some auth) id columns) = (queries, Some no_response)) /\
  (forall row order fld replies,
     order ∈ orders -> fld ∈ text_fields -> nullish (prop order fld) = true ->
     exec route_answer (resolves_spreadsheet row :: resolves_orders orders :: replies)
       (post_spreadsheets_sync (Some auth) id columns) = (queries, Some no_response)) /\
  (forall reason row replies,
     exec route_answer (rejects reason :: resolves_orders orders :: replies)
       (post_spreadsheets_sync (Some auth) id columns) = (queries, Some no_response) /\
     exec route_answer (resolves_spreadsheet row :: rejects reason :: replies)
       (post_spreadsheets_sync (Some auth) id columns) = (queries, Some no_response)).
Proof.
  intros Hauth Hc. cbv zeta. unfold post_spreadsheets_sync. rewrite Hauth.
  split; [|split].
  - intros replies. rewrite exec_call.
    cbn [route_answer settle fmap option_fmap option_map]. cbv beta iota.
    rewrite exec_call. cbn [route_answer settle fmap option_fmap option_map].
    cbv beta iota. cbn [get null bindR]. rewrite exec_Ret. reflexivity.
  - intros row order fld replies Hin Hfld Hnull.
    assert (Hrows : buildRowsForOrders orders columns = Throw TypeError).
    { rewrite (buildRowsForOrders_reachable _ _ Hc).
      eapply mapR_Throw; [exact Hin|]. eapply row_of_nullish; eassumption. }
    rewrite exec_call. cbn [route_answer settle fmap option_fmap option_map].
    cbv beta iota. rewrite exec_call.
    cbn [route_answer settle fmap option_fmap option_map]. cbv beta iota.
    destruct (get row "id") as [spreadsheetId|]; cbn [bindR];
      [|rewrite exec_Ret; reflexivity].
    destruct (get row "sheetId") as [sheetId|]; cbn [bindR];
      [|rewrite exec_Ret; reflexivity].
    unfold sync, sync_request. rewrite Hrows. cbn [bindR].
    rewrite exec_helper_Ret, exec_Ret. reflexivity.
  - intros reason row replies. split;
      rewrite exec_call; cbn [route_answer settle fmap option_fmap option_map];
      cbv beta iota; rewrite exec_call;
      cbn [route_answer settle fmap option_fmap option_map]; cbv beta iota;
      rewrite exec_Ret; reflexivity.
Qed.

Lemma post_sync_unanswered_witness :
  no_header (Some "Bearer t0k") = false /\
  reachable COLUMNS /\
  exec route_answer [resolves_spreadsheet null; resolves_orders [order1]]
    (post_spreadsheets_sync (Some "Bearer t0k") "nope" COLUMNS) =
    ([called (Spreadsheet_findByPk (str "nope")); called Order_findAll],
     Some no_response).
Proof.
  split; [reflexivity|]. split; [apply reachable_init|].
  apply (proj1 (post_sync_unanswered "Bearer t0k" "nope" COLUMNS [order1]
                  eq_refl reachable_init)).
Defined.

(** ** Deleting an order *)



(** ** Requests of the page *)

(** X21: in every run of [makeRequest] that reaches its end: when the user
    is not signed in, nothing but the sign-in state is consulted and the
    callback gets the error [Signin required.]; otherwise the spinner is
    switched on, one request goes to the given url with the given method and
    the header [Authorization: Bearer <token>], and the spinner is switched
    off before the callback is called, with the response on success and with
    the [message] of the JSON error body on failure, or before the error
    callback throws for want of such a body. *)
Theorem makeRequest_spinner_and_header method url replies calls outcome :
  exec page_answer replies (makeRequest method url) = (calls, Some outcome) ->
  (replies !! 0%nat = Some (signed_in false) /\
   calls = [page_called isSignedIn] /\
   outcome = callback_Error (str "Signin required.")) \/
  (exists accessToken,
     replies !! 0%nat = Some (signed_in true) /\
     replies !! 1%nat = Some (token_is accessToken) /\
     calls = [
       page_called isSignedIn;
       page_called access_token;
       page_called (addClass "#spinner" "is-active");
       page_called (ajax url (JsObj [
         ("method", str method);
         ("headers", JsObj [("Authorization", str ("Bearer " +:+ accessToken))])
       ]));
       page_called (removeClass "#spinner" "is-active")
     ] /\
     (forall response, replies !! 3%nat = Some (ajax_success response) ->
                       outcome = callback_response response) /\
     (forall response, replies !! 3%nat = Some (ajax_error response) ->
                       outcome =
                         match (do json <- get response "responseJSON";
                                get json "message") with
                         | Ok message => callback_Error message
                         | Throw _ => page_throws
                         end)).
Proof.
  unfold makeRequest, setSpinnerActive.
  destruct replies as [|reply replies]; [end_of_run|].
  rewrite exec_call. destruct reply; cbn [page_answer]; try solve [end_of_run].
  destruct yes; cbn [negb]; cbv beta iota.
  2: { end_of_run. left. repeat split. }
  destruct replies as [|reply replies]; [end_of_run|].
  rewrite exec_call. destruct reply; cbn [page_answer]; try solve [end_of_run].
  cbv beta iota.
  destruct replies as [|reply replies]; [end_of_run|].
  rewrite exec_call. destruct reply; cbn [page_answer]; try solve [end_of_run].
  cbv beta iota.
  destruct replies as [|reply replies]; [end_of_run|].
  rewrite exec_call. destruct reply; cbn [page_answer]; try solve [end_of_run];
    cbv beta iota;
    (destruct replies as [|reply replies]; [end_of_run|]);
    rewrite exec_call; destruct reply; cbn [page_answer]; try solve [end_of_run];
    cbv beta iota.
  - end_of_run. right. exists accessToken. repeat split; [|discriminate].
    intros ? [= <-]. reflexivity.
  - destruct (do json <- get response "responseJSON"; get json "message") eqn:Hmessage;
      end_of_run; right; exists accessToken; repeat split; try discriminate;
      intros ? [= <-]; rewrite Hmessage; reflexivity.
Qed.

Lemma makeRequest_spinner_and_header_witness :
  exists calls,
    exec page_answer
      [signed_in true; token_is "t0k"; done; ajax_success (int 2); done]
      (makeRequest "POST" "/spreadsheets/s1/sync") =
      (calls, Some (callback_response (int 2))) /\
    last calls = Some (page_called (removeClass "#spinner" "is-active")).
Proof.
  eexists. split; [reflexivity|].
  destruct (makeRequest_spinner_and_header "POST" "/spreadsheets/s1/sync"
              [signed_in true; token_is "t0k"; done; ajax_success (int 2); done]
              _ _ eq_refl) as [(H & _)|(accessToken & _ & _ & Hcalls & _ & _)].
  - discriminate H.
  - rewrite Hcalls. reflexivity.
Defined.
